(** * Concierge bundle engine, deal cache, watch evaluator and deals worker

    A shallow embedding of the Python services
    - [apps/concierge-svc/app/services/bundle_engine.py]
    - [apps/concierge-svc/app/services/http_clients.py]
    - [apps/concierge-svc/app/services/deal_cache.py]
    - [apps/concierge-svc/app/services/websocket_manager.py]
    - [apps/concierge-svc/app/main.py] (chat endpoint)
    - [apps/concierge-svc/app/services/llm_service.py] (intent assembly)
    - [apps/deals-worker/src/index.py] (score and tag stages)
    together with the properties the specification states about them.

    Modelling conventions.
    - Python [float] values are modelled as exact rationals [Q]; [nan], the
      infinities and binary rounding are outside the model.  [round(x, 2)]
      and the [:.2f] format are round-half-to-even on the exact value.
    - [datetime] values are integers counting microseconds; [timedelta]
      arithmetic is integer arithmetic.
    - SQL tables are lists of rows in the scan order of the engine, which SQL
      leaves unspecified; [ORDER BY] is a stable sort of the scanned rows, so
      a statement proved for every list holds for every tie order.
    - The hot cache is a finite map from keys to a value and its expiry
      instant.
    - Database, cache and channel operations succeed; the failures that are
      modelled are the ones the code handles itself: an upstream search that
      raises, a cached entry that does not decode, a dictionary key that is
      missing. *)

From Stdlib Require Import ZArith QArith Qminmax Qround Qabs Lqa Lia.
From Stdlib Require Import String Ascii List Bool Permutation Sorted.
From stdpp Require Import base option list gmap strings.
Import ListNotations.

Local Open Scope Z_scope.
Local Open Scope string_scope.

(** ** Python runtime pieces *)

(** Outcome of a call that may raise. *)
Inductive result (A : Type) : Type :=
| Ok (a : A)
| Raise.
Arguments Ok {A} a.
Arguments Raise {A}.

Definition bind {A B : Type} (m : result A) (k : A -> result B) : result B :=
  match m with
  | Ok a => k a
  | Raise => Raise
  end.

Notation "'let!' x ':=' m 'in' k" := (bind m (fun x => k))
  (at level 10, x pattern, m at level 100, k at level 200).

(** Nearest integer, ties to the even neighbour. *)
Definition round_half_even (q : Q) : Z :=
  let f := Qfloor q in
  match Qcompare (q - inject_Z f) (1 # 2) with
  | Lt => f
  | Gt => f + 1
  | Eq => if Z.even f then f else f + 1
  end.

(** [round(x, 2)] *)
Definition round2 (q : Q) : Q :=
  (inject_Z (round_half_even (q * 100)) / 100)%Q.

(** [max(a, b)] and [min(a, b)] of Python return the first argument on ties. *)
Definition py_max (a b : Q) : Q := if Qlt_le_dec a b then b else a.
Definition py_min (a b : Q) : Q := if Qlt_le_dec b a then b else a.

(** [numpy.interp(x, [x0, x1], [y0, y1])] for [x0 < x1]. *)
Definition np_interp (x x0 x1 y0 y1 : Q) : Q :=
  if Qlt_le_dec x x0 then y0
  else if Qlt_le_dec x1 x then y1
  else (y0 + (x - x0) * ((y1 - y0) / (x1 - x0)))%Q.

(** [timedelta(days=d)], [timedelta(hours=h)] in microseconds. *)
Definition timedelta_days (d : Z) : Z := d * 86400000000.
Definition timedelta_hours (h : Z) : Z := h * 3600000000.

(** [delta.total_seconds()] *)
Definition total_seconds (delta : Z) : Q := (inject_Z delta / 1000000)%Q.

(** *** Strings *)

Definition lower_ascii (c : ascii) : ascii :=
  let n := nat_of_ascii c in
  if ((65 <=? n) && (n <=? 90))%nat then ascii_of_nat (n + 32) else c.

(** [s.lower()], on the ASCII letters. *)
Fixpoint lower (s : string) : string :=
  match s with
  | EmptyString => EmptyString
  | String c r => String (lower_ascii c) (lower r)
  end.

(** [needle in hay] *)
Fixpoint contains (needle hay : string) : bool :=
  String.prefix needle hay ||
  match hay with
  | EmptyString => false
  | String _ r => contains needle r
  end.

(** Truth value of a string: empty strings are falsy. *)
Definition truthy (s : string) : bool := negb (String.eqb s "").

(** [x or y] on an optional string. *)
Definition str_or (x : option string) (y : string) : string :=
  match x with
  | Some s => if truthy s then s else y
  | None => y
  end.

(** Decimal digits of a natural number. *)
Fixpoint digits_fuel (fuel : nat) (n : N) (acc : string) : string :=
  match fuel with
  | O => acc
  | S k =>
      let d := String (ascii_of_N (48 + N.modulo n 10)) acc in
      if (n <? 10)%N then d else digits_fuel k (N.div n 10) d
  end.

Definition str_N (n : N) : string := digits_fuel (S (N.to_nat (N.log2 n))) n "".

(** [f"{q:.2f}"] *)
Definition format_2f (q : Q) : string :=
  let c := Z.abs_N (round_half_even (q * 100)) in
  let cents := N.modulo c 100 in
  (if Qlt_le_dec q 0 then "-" else "") ++
  str_N (N.div c 100) ++ "." ++
  (if (cents <? 10)%N then "0" else "") ++ str_N cents.

(** ** Schemas ([schemas.py], [models.py], [config.py]) *)

Inductive FlightClass := Economy | Premium | Business | First.
Inductive Transmission := Automatic | Manual.
Inductive ComponentType := Flight | Hotel | Car.

Global Instance ComponentType_eq_dec : EqDecision ComponentType.
Proof. solve_decision. Defined.

Record FlightOption := {
  fo_id : string;
  fo_origin : string;
  fo_destination : string;
  fo_departure_time : Z;
  fo_arrival_time : Z;
  fo_airline : string;
  fo_flight_class : FlightClass;
  fo_price : Q;
  fo_duration_minutes : Z;
  fo_seats_available : option Z
}.

Record HotelOption := {
  ho_id : string;
  ho_name : string;
  ho_star_rating : Q;
  ho_price_per_night : Q;
  ho_nights : Z;
  ho_amenities : list string;
  ho_neighborhood : option string
}.

Record CarOption := {
  co_id : string;
  co_provider : string;
  co_car_type : string;
  co_daily_price : Q;
  co_seats : Z;
  co_transmission : option Transmission
}.

Record BundlePreferences := {
  bp_flight_class : FlightClass;
  bp_hotel_star_rating : option (list Z);
  bp_amenities : option (list string);
  bp_pet_friendly : option bool;
  bp_avoid_red_eye : option bool
}.

Record BundleConstraints := {
  bc_adults : Z;
  bc_children : Z;
  bc_rooms : Z
}.

Record BundleRequest := {
  br_origin : option string;
  br_destination : string;
  br_departure_date : Z;
  br_return_date : option Z;
  br_budget : Q;
  br_preferences : BundlePreferences;
  br_constraints : BundleConstraints
}.

(** The field constraints pydantic enforces when a [BundleRequest] is built. *)
Definition star_list_ok (o : option (list Z)) : bool :=
  match o with
  | None => true
  | Some l => (1 <=? length l)%nat && (length l <=? 3)%nat
  end.

Definition origin_ok (o : option string) : bool :=
  match o with
  | None => true
  | Some s => (String.length s <=? 3)%nat
  end.

Definition BundleRequest_valid (r : BundleRequest) : bool :=
  origin_ok (br_origin r)
  && (String.length (br_destination r) <=? 3)%nat
  && (if Qlt_le_dec 0 (br_budget r) then true else false)
  && star_list_ok (bp_hotel_star_rating (br_preferences r))
  && (1 <=? bc_adults (br_constraints r))%Z
  && (0 <=? bc_children (br_constraints r))%Z
  && (1 <=? bc_rooms (br_constraints r))%Z.

(** The [metadata] dictionary of a component, one shape per component type.
    The two flight instants stand for their ISO-8601 renderings. *)
Inductive Metadata :=
| FlightMeta (departure arrival : Z) (class : FlightClass) (duration : Z)
| HotelMeta (nights : Z) (amenities : list string) (neighborhood : option string)
| CarMeta (transmission : option Transmission) (seats : Z).

Record BundleComponent := {
  cmp_type : ComponentType;
  cmp_summary : string;
  cmp_price : Q;
  cmp_metadata : Metadata
}.

Record Bundle := {
  b_id : string;
  b_destination : string;
  b_total_price : Q;
  b_savings : Q;
  b_fit_score : Q;
  b_explanation : string;
  b_valid_until : Z;
  b_components : list BundleComponent
}.

Record BundleResponse := {
  bundles : list Bundle;
  search_id : string;
  total_results : nat
}.

Record DealEvent := {
  ev_deal_id : string;
  ev_type : ComponentType;
  ev_destination : string;
  ev_route : option string;
  ev_summary : string;
  ev_price : gmap string Q;
  ev_tags : list string;
  ev_score : Q;
  ev_valid_until : Z;
  ev_inventory : option Z
}.

Record WatchRequestCreate := {
  wc_user_id : string;
  wc_destination : string;
  wc_budget_ceiling : Q;
  wc_min_fit_score : Q;
  wc_notify_on_inventory_below : option Z
}.

Record WatchEvent := {
  we_watch_id : string;
  we_user_id : string;
  we_destination : string;
  we_message : string;
  we_triggered_at : Z;
  we_bundle : option Bundle
}.

(** Table rows ([models.py]).  [cd_payload] is the JSON column holding the
    dumped event; [None] is the empty dictionary the column defaults to. *)
Record CachedDeal := {
  cd_deal_id : string;
  cd_type : ComponentType;
  cd_destination : string;
  cd_summary : string;
  cd_payload : option DealEvent;
  cd_score : Q;
  cd_price_value : Q;
  cd_inventory : option Z;
  cd_valid_until : Z;
  cd_updated_at : Z
}.

Record WatchRequest := {
  w_id : string;
  w_user_id : string;
  w_destination : string;
  w_budget_ceiling : Q;
  w_min_fit_score : Q;
  w_notify_on_inventory_below : option Z;
  w_active : bool;
  w_created_at : Z;
  w_last_triggered_at : option Z
}.

Record BundleRecord := {
  rec_id : string;
  rec_search_id : string;
  rec_user_id : option string;
  rec_destination : string;
  rec_total_price : Q;
  rec_savings : Q;
  rec_fit_score : Q;
  rec_explanation : string;
  rec_components : list BundleComponent;
  rec_valid_until : Z;
  rec_created_at : Z
}.

Record Settings := {
  bundle_limit : nat;
  watch_poll_interval_seconds : Z
}.

(** [Settings] constrains [bundle_limit] to 1..10. *)
Definition Settings_valid (s : Settings) : bool :=
  (1 <=? bundle_limit s)%nat && (bundle_limit s <=? 10)%nat
  && (10 <=? watch_poll_interval_seconds s)%Z.

(** Library functions the services call and whose text is not part of the
    repository. *)
Class Runtime := {
  (** [str(x)] of a float, as an f-string renders it *)
  float_str : Q -> string;
  (** [hashlib.sha1(s.encode()).hexdigest()] *)
  sha1_hexdigest : string -> string;
  (** [json.dumps(request.model_dump(mode="json"), sort_keys=True)] *)
  json_dumps_sorted : BundleRequest -> string;
  (** [response.model_dump_json()] *)
  model_dump_json : BundleResponse -> string;
  (** [BundleResponse.model_validate_json(raw)] *)
  model_validate_json : string -> result BundleResponse
}.

(** The stores shared by the services: three tables and the hot cache, which
    is [None] when no client was configured.  A cache entry carries the
    instant (in seconds of the cache clock) at which it expires. *)
Record Store := {
  cached_deals : list CachedDeal;
  watch_requests : list WatchRequest;
  bundle_records : list BundleRecord;
  redis : option (gmap string (string * Z))
}.

Definition redis_get (r : gmap string (string * Z)) (now : Z) (key : string) : option string :=
  match r !! key with
  | Some (v, expiry) => if (now <? expiry)%Z then Some v else None
  | None => None
  end.

Definition redis_setex (r : gmap string (string * Z)) (now : Z) (key : string)
    (ttl : Z) (v : string) : gmap string (string * Z) :=
  <[key := (v, now + ttl)]> r.

(** Stable sort by decreasing key: [l.sort(key=..., reverse=True)] and
    [ORDER BY key DESC] over rows in scan order. *)
Section SortDesc.
Context {A : Type} (key : A -> Q).

Fixpoint insert_desc (x : A) (l : list A) : list A :=
  match l with
  | [] => [x]
  | y :: r => if Qlt_le_dec (key x) (key y) then y :: insert_desc x r else x :: y :: r
  end.

Fixpoint sort_desc (l : list A) : list A :=
  match l with
  | [] => []
  | x :: r => insert_desc x (sort_desc r)
  end.

(** Every element is followed only by elements whose key is not larger. *)
Definition descending : list A -> Prop :=
  StronglySorted (fun a b => (key b <= key a)%Q).
End SortDesc.

(** ** Upstream search clients ([services/http_clients.py]) *)

Module http_clients.

Definition _fallback_flights (request : BundleRequest) : list FlightOption :=
  let base_departure := br_departure_date request in
  [ {| fo_id := "demo-flight-1";
       fo_origin := str_or (br_origin request) "SFO";
       fo_destination := br_destination request;
       fo_departure_time := base_departure;
       fo_arrival_time := base_departure + timedelta_hours 5;
       fo_airline := "Kayak Airways";
       fo_flight_class := bp_flight_class (br_preferences request);
       fo_price := py_min (br_budget request * (35 # 100)) 450;
       fo_duration_minutes := 310;
       fo_seats_available := Some 12 |} ].

Definition _fallback_hotels (request : BundleRequest) : list HotelOption :=
  [ {| ho_id := "demo-hotel-1";
       ho_name := "Kayak Grand";
       ho_star_rating := 45 # 10;
       ho_price_per_night := py_min (br_budget request * (3 # 10)) 280;
       ho_nights := 3;
       ho_amenities := ["wifi"; "breakfast"; "parking"];
       ho_neighborhood := Some "Downtown" |} ].

Definition _fallback_cars (request : BundleRequest) : list CarOption :=
  [ {| co_id := "demo-car-1";
       co_provider := "Kayak Rentals";
       co_car_type := "SUV";
       co_daily_price := 65;
       co_seats := 5;
       co_transmission := Some Automatic |} ].

Record SearchPayload := {
  sp_destination : string;
  sp_origin : option string;
  sp_departureDate : Z;
  sp_returnDate : option Z;
  sp_budget : Q;
  sp_preferences : BundlePreferences;
  sp_constraints : BundleConstraints
}.

Definition build_search_payload (request : BundleRequest) (allocation : Q) : SearchPayload :=
  {| sp_destination := br_destination request;
     sp_origin := br_origin request;
     sp_departureDate := br_departure_date request;
     sp_returnDate := br_return_date request;
     sp_budget := allocation;
     sp_preferences := br_preferences request;
     sp_constraints := br_constraints request |}.

(** An upstream service: what the search returns for a payload on the
    [k]-th call.  [None] is any exception raised inside the [try] block
    (transport error, error status, malformed body, an item that fails
    validation); [Some items] is the validated item list, empty when the
    body lacks the expected keys. *)
Definition Upstream (A : Type) : Type := SearchPayload -> nat -> option (list A).

(** [items or fallback] *)
Definition or_fallback {A : Type} (items fallback : list A) : list A :=
  match items with
  | [] => fallback
  | _ :: _ => items
  end.

(** [@retry(stop=stop_after_attempt(n))]: call again while the call raises,
    at most [n] calls, then raise. *)
Fixpoint retry {A : Type} (attempts : nat) (call : nat -> result A) (k : nat) : result A :=
  match attempts with
  | O => Raise
  | S n =>
      match call k with
      | Ok a => Ok a
      | Raise => retry n call (S k)
      end
  end.

(** One execution of the body of [fetch_flights]: the [except] clause turns
    every exception into the fallback. *)
Definition fetch_flights_body (up : Upstream FlightOption) (request : BundleRequest)
    (k : nat) : result (list FlightOption) :=
  let payload := build_search_payload request (br_budget request * (4 # 10)) in
  match up payload k with
  | Some flights => Ok (or_fallback flights (_fallback_flights request))
  | None => Ok (_fallback_flights request)
  end.

Definition fetch_flights (up : Upstream FlightOption) (request : BundleRequest)
    : result (list FlightOption) :=
  retry 3 (fetch_flights_body up request) 0.

Definition fetch_hotels_body (up : Upstream HotelOption) (request : BundleRequest)
    (k : nat) : result (list HotelOption) :=
  let payload := build_search_payload request (br_budget request * (4 # 10)) in
  match up payload k with
  | Some hotels => Ok (or_fallback hotels (_fallback_hotels request))
  | None => Ok (_fallback_hotels request)
  end.

Definition fetch_hotels (up : Upstream HotelOption) (request : BundleRequest)
    : result (list HotelOption) :=
  retry 3 (fetch_hotels_body up request) 0.

Definition fetch_cars_body (up : Upstream CarOption) (request : BundleRequest)
    (k : nat) : result (list CarOption) :=
  let payload := build_search_payload request (br_budget request * (2 # 10)) in
  match up payload k with
  | Some cars => Ok (or_fallback cars (_fallback_cars request))
  | None => Ok (_fallback_cars request)
  end.

Definition fetch_cars (up : Upstream CarOption) (request : BundleRequest)
    : result (list CarOption) :=
  retry 3 (fetch_cars_body up request) 0.


End http_clients.

(** ** Connection registry ([services/websocket_manager.py]) *)

(** The frame pushed to a client: [{"type": ..., "data": event.model_dump()}]. *)
Record Frame := {
  frame_type : string;
  frame_data : WatchEvent
}.

Module WebSocketManager.

(** Channels are identified by a number. *)
Definition Connections : Type := gmap string (list nat).

Definition connect (conns : Connections) (websocket : nat) (user_id : option string)
    : Connections :=
  let key := str_or user_id "anon" in
  <[key := (default [] (conns !! key) ++ [websocket])%list]> conns.

(** [sockets.remove(websocket)] removes the first occurrence. *)
Fixpoint remove_first (x : nat) (l : list nat) : list nat :=
  match l with
  | [] => []
  | y :: r => if Nat.eqb x y then r else y :: remove_first x r
  end.

Definition disconnect (conns : Connections) (websocket : nat) (user_id : option string)
    : Connections :=
  let key := str_or user_id "anon" in
  match conns !! key with
  | None => conns
  | Some sockets =>
      match remove_first websocket sockets with
      | [] => delete key conns
      | rest => <[key := rest]> conns
      end
  end.

(** The frames sent by [broadcast], one per target channel. *)
Definition broadcast (conns : Connections) (payload : Frame) (user_id : option string)
    : list (nat * Frame) :=
  let key := str_or user_id "anon" in
  let targets :=
    match user_id with
    | None => concat (map snd (map_to_list conns))
    | Some _ => default [] (conns !! key)
    end in
  map (fun socket => (socket, payload)) targets.

End WebSocketManager.

(** ** Deal cache ([services/deal_cache.py]) *)

Module DealCache.

Section WithRuntime.
Context `{Runtime}.

(** [top_deals]: [WHERE destination = ?] (only for a non-empty
    destination), [ORDER BY score DESC], [LIMIT limit]. *)
Definition top_deals (table : list CachedDeal) (destination : option string)
    (limit : nat) : list CachedDeal :=
  let rows :=
    match destination with
    | Some d =>
        if truthy d
        then List.filter (fun row => String.eqb (cd_destination row) d) table
        else table
    | None => table
    end in
  firstn limit (sort_desc cd_score rows).

(** [upsert_deal_event]: [event.price["deal"]] raises when the key is
    missing; an existing row keeps its type, destination and summary. *)
Definition upsert_deal_event (table : list CachedDeal) (now : Z) (event : DealEvent)
    : result (list CachedDeal) :=
  match ev_price event !! "deal" with
  | None => Raise
  | Some price_value =>
      let same row := String.eqb (cd_deal_id row) (ev_deal_id event) in
      if existsb same table
      then Ok (map (fun row =>
                 if same row
                 then {| cd_deal_id := cd_deal_id row;
                         cd_type := cd_type row;
                         cd_destination := cd_destination row;
                         cd_summary := cd_summary row;
                         cd_payload := Some event;
                         cd_score := ev_score event;
                         cd_price_value := price_value;
                         cd_inventory := ev_inventory event;
                         cd_valid_until := ev_valid_until event;
                         cd_updated_at := now |}
                 else row) table)
      else Ok (table ++
               [ {| cd_deal_id := ev_deal_id event;
                    cd_type := ev_type event;
                    cd_destination := ev_destination event;
                    cd_summary := ev_summary event;
                    cd_payload := Some event;
                    cd_score := ev_score event;
                    cd_price_value := price_value;
                    cd_inventory := ev_inventory event;
                    cd_valid_until := ev_valid_until event;
                    cd_updated_at := now |} ])%list
  end.

Definition create_watch (uuid : string) (now : Z) (payload : WatchRequestCreate)
    : WatchRequest :=
  {| w_id := "watch_" ++ uuid;
     w_user_id := wc_user_id payload;
     w_destination := wc_destination payload;
     w_budget_ceiling := wc_budget_ceiling payload;
     w_min_fit_score := wc_min_fit_score payload;
     w_notify_on_inventory_below := wc_notify_on_inventory_below payload;
     w_active := true;
     w_created_at := now;
     w_last_triggered_at := None |}.

Definition bundle_record (response : BundleResponse) (user_id : option string)
    (now : Z) (bundle : Bundle) : BundleRecord :=
  {| rec_id := b_id bundle;
     rec_search_id := search_id response;
     rec_user_id := user_id;
     rec_destination := b_destination bundle;
     rec_total_price := b_total_price bundle;
     rec_savings := b_savings bundle;
     rec_fit_score := b_fit_score bundle;
     rec_explanation := b_explanation bundle;
     rec_components := b_components bundle;
     rec_valid_until := b_valid_until bundle;
     rec_created_at := now |}.

(** [cache_bundles]: one row per bundle, then the whole response in the hot
    cache for 900 seconds when a client and a user are present. *)
Definition cache_bundles (st : Store) (clock now : Z) (response : BundleResponse)
    (user_id : option string) : Store :=
  let rows := map (bundle_record response user_id now) (bundles response) in
  let cache :=
    match redis st, user_id with
    | Some r, Some u =>
        if truthy u
        then Some (redis_setex r clock ("bundles:" ++ u ++ ":" ++ search_id response)
                     900 (model_dump_json response))
        else Some r
    | other, _ => other
    end in
  {| cached_deals := cached_deals st;
     watch_requests := watch_requests st;
     bundle_records := (bundle_records st ++ rows)%list;
     redis := cache |}.

(** [deal_map.setdefault(deal.destination, []).append(deal)] for every deal. *)
Definition group_by_destination (deals : list CachedDeal) : gmap string (list CachedDeal) :=
  fold_left
    (fun deal_map deal =>
       <[cd_destination deal :=
           (default [] (deal_map !! cd_destination deal) ++ [deal])%list]> deal_map)
    deals ∅.

(** The inner loop over a bucket: the first affordable deal is recorded and
    the loop is left. *)
Fixpoint scan_bucket (watch : WatchRequest) (bucket : list CachedDeal)
    : list (WatchRequest * CachedDeal) :=
  match bucket with
  | [] => []
  | deal :: rest =>
      if Qle_bool (cd_price_value deal) (w_budget_ceiling watch)
      then [(watch, deal)]
      else scan_bucket watch rest
  end.

Definition triggered_pairs (watches : list WatchRequest)
    (deal_map : gmap string (list CachedDeal)) : list (WatchRequest * CachedDeal) :=
  flat_map
    (fun watch => scan_bucket watch (default [] (deal_map !! w_destination watch)))
    watches.

Definition fire (now : Z) (watch : WatchRequest) : WatchRequest :=
  {| w_id := w_id watch;
     w_user_id := w_user_id watch;
     w_destination := w_destination watch;
     w_budget_ceiling := w_budget_ceiling watch;
     w_min_fit_score := w_min_fit_score watch;
     w_notify_on_inventory_below := w_notify_on_inventory_below watch;
     w_active := false;
     w_created_at := w_created_at watch;
     w_last_triggered_at := Some now |}.

(** [session.merge(watch)]: replace the row with the same primary key, or
    add the row. *)
Definition merge (table : list WatchRequest) (watch : WatchRequest) : list WatchRequest :=
  let same row := String.eqb (w_id row) (w_id watch) in
  if existsb same table
  then map (fun row => if same row then watch else row) table
  else (table ++ [watch])%list.

Definition alert_message (deal : CachedDeal) : string :=
  "Deal " ++ cd_deal_id deal ++ " now $" ++ format_2f (cd_price_value deal).

Definition alert (now : Z) (pair : WatchRequest * CachedDeal) : Frame :=
  let '(watch, deal) := pair in
  {| frame_type := "deal_alert";
     frame_data :=
       {| we_watch_id := w_id watch;
          we_user_id := w_user_id watch;
          we_destination := w_destination watch;
          we_message := alert_message deal;
          we_triggered_at := now;
          we_bundle := None |} |}.

(** What one evaluation leaves behind: the store, the calls made to
    [ws_manager.broadcast] (payload and target user) and the frames the
    registry sent on its channels. *)
Record Tick := {
  tick_store : Store;
  tick_broadcasts : list (Frame * string);
  tick_sent : list (nat * Frame)
}.

Definition evaluate_watches (st : Store) (conns : WebSocketManager.Connections)
    (now : Z) : Tick :=
  let watches := List.filter w_active (watch_requests st) in
  match watches with
  | [] => {| tick_store := st; tick_broadcasts := []; tick_sent := [] |}
  | _ :: _ =>
      let deals := top_deals (cached_deals st) None 5 in
      let deal_map := group_by_destination deals in
      let triggered := triggered_pairs watches deal_map in
      match triggered with
      | [] => {| tick_store := st; tick_broadcasts := []; tick_sent := [] |}
      | _ :: _ =>
          let table :=
            fold_left (fun table pair => merge table (fire now (fst pair)))
              triggered (watch_requests st) in
          let calls :=
            map (fun pair => (alert now pair, w_user_id (fst pair))) triggered in
          {| tick_store :=
               {| cached_deals := cached_deals st;
                  watch_requests := table;
                  bundle_records := bundle_records st;
                  redis := redis st |};
             tick_broadcasts := calls;
             tick_sent :=
               flat_map (fun call =>
                 WebSocketManager.broadcast conns (fst call) (Some (snd call))) calls |}
      end
  end.

End WithRuntime.

(** *** Vocabulary of the specification *)

(** The rows a query for [destination] ranges over. *)
Definition matching_rows (table : list CachedDeal) (destination : option string)
    : list CachedDeal :=
  match destination with
  | Some d =>
      if truthy d
      then List.filter (fun row => String.eqb (cd_destination row) d) table
      else table
  | None => table
  end.

(** [top_deals] as the specification words it: among the deals that have
    not expired at [now], the [limit] highest scores, ties by decreasing
    [updated_at]. *)
Definition top_deals_spec (now : Z) (table : list CachedDeal)
    (destination : option string) (limit : nat) : list CachedDeal :=
  let unexpired := List.filter (fun row => (now <? cd_valid_until row)%Z) table in
  let rows := matching_rows unexpired destination in
  firstn limit
    (sort_desc cd_score (sort_desc (fun row => inject_Z (cd_updated_at row)) rows)).

(** The destination bucket of the evaluator: the top deals of that
    destination, in the order [top_deals] returns them. *)
Definition bucket (st : Store) (destination : string) : list CachedDeal :=
  List.filter (fun deal => String.eqb (cd_destination deal) destination)
    (top_deals (cached_deals st) None 5).

(** The first deal of the watch's bucket priced at or below its ceiling. *)
Definition first_affordable (st : Store) (watch : WatchRequest) : option CachedDeal :=
  List.find (fun deal => Qle_bool (cd_price_value deal) (w_budget_ceiling watch))
    (bucket st (w_destination watch)).

(** The pairs one watch contributes to the triggered list. *)
Definition pairs_of (st : Store) (watch : WatchRequest) : list (WatchRequest * CachedDeal) :=
  match first_affordable st watch with
  | Some deal => [(watch, deal)]
  | None => []
  end.


(** The table once the watches whose keys are listed have fired. *)
Definition fire_ids (now : Z) (ids : list string) (table : list WatchRequest)
    : list WatchRequest :=
  map (fun row => if existsb (String.eqb (w_id row)) ids then fire now row else row) table.

End DealCache.

(** ** Bundle engine ([services/bundle_engine.py]) *)

(** What a call to [generate] reads from outside the stores. *)
Record Env := {
  (** clock of the hot cache, in seconds *)
  clock : Z;
  (** [datetime.utcnow()] *)
  utcnow : Z;
  flights_service : http_clients.Upstream FlightOption;
  hotels_service : http_clients.Upstream HotelOption;
  cars_service : http_clients.Upstream CarOption;
  (** the successive values of [uuid4().hex] *)
  uuid4_hex : nat -> string
}.

Module BundleEngine.

Section WithRuntime.
Context `{Runtime}.

Definition _cache_key (request : BundleRequest) : string :=
  sha1_hexdigest (json_dumps_sorted request).

Definition _cached_response (st : Store) (now : Z) (key : string)
    : result (option BundleResponse) :=
  match redis st with
  | None => Ok None
  | Some r =>
      match redis_get r now ("concierge:bundle:" ++ key) with
      | None => Ok None
      | Some cached =>
          if truthy cached
          then let! response := model_validate_json cached in Ok (Some response)
          else Ok None
      end
  end.

Definition _store_response (st : Store) (now : Z) (key : string)
    (response : BundleResponse) : Store :=
  match redis st with
  | None => st
  | Some r =>
      {| cached_deals := cached_deals st;
         watch_requests := watch_requests st;
         bundle_records := bundle_records st;
         redis := Some (redis_setex r now ("concierge:bundle:" ++ key) 600
                          (model_dump_json response)) |}
  end.

Definition _price_summary (fare : FlightOption) (hotel : HotelOption) (car : CarOption)
    : Q * Q :=
  let hotel_total := (ho_price_per_night hotel * inject_Z (ho_nights hotel))%Q in
  let car_total := (co_daily_price car * inject_Z (Z.max (ho_nights hotel) 1))%Q in
  let total := (fo_price fare + hotel_total + car_total)%Q in
  let baseline := (total * (115 # 100))%Q in
  (total, baseline).

(** [hotel.star_rating in ratings] *)
Definition star_in (star : Q) (ratings : list Z) : bool :=
  existsb (fun r => Qeq_bool (inject_Z r) star) ratings.

Definition _fit_score (total_price baseline : Q) (request : BundleRequest)
    (hotel : HotelOption) (deal_bonus : Q) : Q :=
  let budget_delta := py_max (br_budget request - total_price)%Q 0%Q in
  let budget_score := np_interp budget_delta 0%Q (br_budget request) 10%Q 35%Q in
  let hotel_score : Q :=
    match bp_hotel_star_rating (br_preferences request) with
    | Some (r :: rs) => if star_in (ho_star_rating hotel) (r :: rs) then 25%Q else 10%Q
    | _ => 10%Q
    end in
  py_min 100%Q (budget_score + hotel_score + deal_bonus)%Q.

Definition _build_components (flight : FlightOption) (hotel : HotelOption)
    (car : CarOption) : list BundleComponent :=
  let hotel_total := (ho_price_per_night hotel * inject_Z (ho_nights hotel))%Q in
  let car_total := (co_daily_price car * inject_Z (Z.max (ho_nights hotel) 1))%Q in
  [ {| cmp_type := Flight;
       cmp_summary := fo_airline flight ++ " " ++ fo_origin flight ++ "→"
                      ++ fo_destination flight;
       cmp_price := fo_price flight;
       cmp_metadata := FlightMeta (fo_departure_time flight) (fo_arrival_time flight)
                         (fo_flight_class flight) (fo_duration_minutes flight) |};
    {| cmp_type := Hotel;
       cmp_summary := ho_name hotel ++ " · " ++ float_str (ho_star_rating hotel) ++ "★";
       cmp_price := hotel_total;
       cmp_metadata := HotelMeta (ho_nights hotel) (ho_amenities hotel)
                         (ho_neighborhood hotel) |};
    {| cmp_type := Car;
       cmp_summary := co_provider car ++ " " ++ co_car_type car;
       cmp_price := car_total;
       cmp_metadata := CarMeta (co_transmission car) (co_seats car) |} ].

(** [deal.payload.get("type") == t] *)
Definition payload_type_is (deal : CachedDeal) (t : ComponentType) : bool :=
  match cd_payload deal with
  | Some event => bool_decide (ev_type event = t)
  | None => false
  end.

(** [deal.payload.get("price", {}).get("discount", 0)] *)
Definition payload_discount (deal : CachedDeal) : Q :=
  match cd_payload deal with
  | Some event => default 0%Q (ev_price event !! "discount")
  | None => 0%Q
  end.

(** The loop over the deals, left at the first deal that applies.  The
    state is [(savings, deal_bonus, explanation)]. *)
Fixpoint overlay (request : BundleRequest) (flight : FlightOption) (hotel : HotelOption)
    (deals : list CachedDeal) (savings deal_bonus : Q) (explanation : string)
    : Q * Q * string :=
  match deals with
  | [] => (savings, deal_bonus, explanation)
  | deal :: rest =>
      if negb (String.eqb (cd_destination deal) (br_destination request))
      then overlay request flight hotel rest savings deal_bonus explanation
      else if payload_type_is deal Hotel
              && contains (lower (ho_name hotel)) (lower (cd_summary deal))
      then ((savings + payload_discount deal)%Q,
            py_max deal_bonus (py_min (cd_score deal / 2)%Q 25%Q),
            "Hotel deal: " ++ cd_summary deal)
      else if payload_type_is deal Flight
              && contains (fo_origin flight) (cd_summary deal)
      then ((savings + payload_discount deal)%Q,
            py_max deal_bonus (py_min (cd_score deal / 2)%Q 25%Q),
            "Flight deal: " ++ cd_summary deal)
      else overlay request flight hotel rest savings deal_bonus explanation
  end.

(** The body of the innermost loop of [generate]. *)
Definition make_bundle (request : BundleRequest) (deals : list CachedDeal)
    (uuid : string) (choice : FlightOption * HotelOption * CarOption) : Bundle :=
  let '(flight, hotel, car) := choice in
  let '(total_price, baseline) := _price_summary flight hotel car in
  let savings := py_max 0%Q (baseline - total_price)%Q in
  let '(savings, deal_bonus, explanation) :=
    overlay request flight hotel deals savings 0%Q
      "Balanced itinerary with matched preferences" in
  let fit_score := _fit_score total_price baseline request hotel deal_bonus in
  {| b_id := "bundle_" ++ uuid;
     b_destination := br_destination request;
     b_total_price := round2 total_price;
     b_savings := round2 savings;
     b_fit_score := round2 fit_score;
     b_explanation := explanation;
     b_valid_until := br_departure_date request - timedelta_days 1;
     b_components := _build_components flight hotel car |}.

(** The three nested loops over [flights[:3]], [hotels[:3]], [cars[:2]]. *)
Definition choices (flights : list FlightOption) (hotels : list HotelOption)
    (cars : list CarOption) : list (FlightOption * HotelOption * CarOption) :=
  flat_map (fun flight =>
    flat_map (fun hotel =>
      map (fun car => (flight, hotel, car)) (firstn 2 cars))
      (firstn 3 hotels))
    (firstn 3 flights).

Definition _gather_inventory (env : Env) (request : BundleRequest)
    : result (list FlightOption * list HotelOption * list CarOption) :=
  let! flights := http_clients.fetch_flights (flights_service env) request in
  let! hotels := http_clients.fetch_hotels (hotels_service env) request in
  let! cars := http_clients.fetch_cars (cars_service env) request in
  Ok (flights, hotels, cars).

(** The response computed on a cache miss from the inventory and the deals. *)
Definition build_response (settings : Settings) (env : Env) (request : BundleRequest)
    (flights : list FlightOption) (hotels : list HotelOption) (cars : list CarOption)
    (deals : list CachedDeal) : BundleResponse :=
  let picked := choices flights hotels cars in
  let made := imap (fun i choice => make_bundle request deals (uuid4_hex env i) choice)
                picked in
  let ranked := firstn (bundle_limit settings) (sort_desc b_fit_score made) in
  {| bundles := ranked;
     search_id := "search_" ++ uuid4_hex env (length picked);
     total_results := length ranked |}.

Definition generate (settings : Settings) (st : Store) (env : Env)
    (request : BundleRequest) (user_id : option string)
    : result (BundleResponse * Store) :=
  let cache_key := _cache_key request in
  let! cached := _cached_response st (clock env) cache_key in
  match cached with
  | Some response => Ok (response, st)
  | None =>
      let! inventory := _gather_inventory env request in
      let '(flights, hotels, cars) := inventory in
      let deals := DealCache.top_deals (cached_deals st) (Some (br_destination request)) 5 in
      let response := build_response settings env request flights hotels cars deals in
      let st := _store_response st (clock env) cache_key response in
      let st :=
        match user_id with
        | Some u =>
            if truthy u
            then DealCache.cache_bundles st (clock env) (utcnow env) response user_id
            else st
        | None => st
        end in
      Ok (response, st)
  end.

(** The store a cache miss leaves behind. *)
Definition store_after (st : Store) (env : Env) (request : BundleRequest)
    (user_id : option string) (response : BundleResponse) : Store :=
  let st := _store_response st (clock env) (_cache_key request) response in
  match user_id with
  | Some u =>
      if truthy u
      then DealCache.cache_bundles st (clock env) (utcnow env) response user_id
      else st
  | None => st
  end.

(** The unexpired entry of the hot cache for [request] at instant [now]. *)
Definition cached_at (st : Store) (now : Z) (request : BundleRequest) : option string :=
  match redis st with
  | Some r => redis_get r now ("concierge:bundle:" ++ _cache_key request)
  | None => None
  end.


End WithRuntime.

(** *** Vocabulary of the specification *)







End BundleEngine.

(** ** Chat endpoint ([main.py], [services/llm_service.py]) *)

Module Chat.

Record IntentPreferences := {
  ip_hotel_star_rating : option (list Z);
  ip_amenities : option (list string);
  ip_pet_friendly : option bool;
  ip_avoid_red_eye : option bool;
  (** [None] is a value pydantic rejects for [flight_class] *)
  ip_flight_class : option FlightClass
}.

(** The intent dictionary returned by [extract_intent]. *)
Record Intent := {
  in_destination : option string;
  in_origin : option string;
  in_departure_date : option Z;
  in_return_date : option Z;
  in_budget : Q;
  in_adults : Z;
  in_children : Z;
  in_preferences : IntentPreferences
}.

(** [_parse_llm_output] once the fields of the model's JSON are parsed:
    [parsed] carries the parsed dates, and the intent's return date falls
    back on three days after the departure. *)
Definition intent_of_parsed (parsed : Intent) : Intent :=
  {| in_destination := in_destination parsed;
     in_origin := in_origin parsed;
     in_departure_date := in_departure_date parsed;
     in_return_date :=
       match in_return_date parsed with
       | Some r => Some r
       | None =>
           match in_departure_date parsed with
           | Some d => Some (d + timedelta_days 3)
           | None => None
           end
       end;
     in_budget := in_budget parsed;
     in_adults := in_adults parsed;
     in_children := in_children parsed;
     in_preferences := in_preferences parsed |}.

(** What the endpoint does with an intent before it calls the engine. *)
Inductive Reconstructed :=
| NotUnderstood                      (* the error payload is returned *)
| Invalid                            (* pydantic rejects the request *)
| Request (request : BundleRequest).

Definition bundle_request_of (intent : Intent) : Reconstructed :=
  match in_destination intent, in_departure_date intent with
  | Some destination, Some departure_date =>
      if truthy destination
      then
        match ip_flight_class (in_preferences intent) with
        | None => Invalid
        | Some flight_class =>
            let request :=
              {| br_origin := in_origin intent;
                 br_destination := destination;
                 br_departure_date := departure_date;
                 br_return_date :=
                   match in_return_date intent with
                   | Some r => Some r
                   | None => Some (departure_date + timedelta_days 3)
                   end;
                 br_budget := in_budget intent;
                 br_preferences :=
                   {| bp_flight_class := flight_class;
                      bp_hotel_star_rating := ip_hotel_star_rating (in_preferences intent);
                      bp_amenities := ip_amenities (in_preferences intent);
                      bp_pet_friendly := ip_pet_friendly (in_preferences intent);
                      bp_avoid_red_eye := ip_avoid_red_eye (in_preferences intent) |};
                 br_constraints :=
                   {| bc_adults := in_adults intent;
                      bc_children := in_children intent;
                      bc_rooms := 1 |} |} in
            if BundleRequest_valid request then Request request else Invalid
        end
      else NotUnderstood
  | _, _ => NotUnderstood
  end.

Section WithRuntime.
Context `{Runtime}.

(** [chat_with_concierge]: [None] is the "could not understand" reply. *)
Definition chat_with_concierge (settings : Settings) (st : Store) (env : Env)
    (intent : Intent) (user_id : option string)
    : result (option (BundleResponse * Store)) :=
  match bundle_request_of intent with
  | NotUnderstood => Ok None
  | Invalid => Raise
  | Request request =>
      let! out := BundleEngine.generate settings st env request user_id in
      Ok (Some out)
  end.

End WithRuntime.

End Chat.

(** ** Deals worker ([apps/deals-worker/src/index.py]) *)

Module DealsWorker.

(** The source row kept under ['raw_data']; a field is [None] when the row
    has no such key. *)
Record RawData := {
  available_seats : option Z;
  changeable : option bool
}.

(** A raw candidate; ['departure_time'] and ['raw_data'] are optional keys. *)
Record RawDeal := {
  type : ComponentType;
  reference_id : string;
  original_price : Q;
  deal_price : Q;
  departure_time : option Z;
  raw_data : option RawData
}.

Record Normalized := {
  raw : RawDeal;
  discount_percentage : Q;
  valid_until : Z;
  confidence : Q
}.

Record Scored := {
  normalized : Normalized;
  ai_score : Q
}.

Record Tagged := {
  scored : Scored;
  tags : list string;
  conditions : list string
}.

(** Apply a fallible step to every element; the first exception ends the
    loop. *)
Fixpoint for_each {A B : Type} (f : nat -> A -> result B) (k : nat) (l : list A)
    : result (list B) :=
  match l with
  | [] => Ok []
  | x :: r =>
      let! y := f k x in
      let! ys := for_each f (S k) r in
      Ok (y :: ys)
  end.

Definition normalize_deal (now : Z) (deal : RawDeal) : result Normalized :=
  if Qeq_bool (original_price deal) 0 then Raise
  else
    let discount :=
      round2 ((original_price deal - deal_price deal) / original_price deal * 100) in
    Ok {| raw := deal;
          discount_percentage := discount;
          valid_until :=
            match departure_time deal with
            | Some t => t - timedelta_days 1
            | None => now + timedelta_days 7
            end;
          confidence := if Qlt_le_dec 30 discount then 8 # 10 else 6 # 10 |}.

Definition normalize_deals (now : Z) (raw_deals : list RawDeal) : result (list Normalized) :=
  for_each (fun _ => normalize_deal now) 0 raw_deals.

(** Hours left until [valid_until]. *)
Definition time_until_valid (now : Z) (deal : Normalized) : Q :=
  (total_seconds (valid_until deal - now) / 3600)%Q.

Definition calculate_deal_score (now : Z) (deal : Normalized) (popularity_boost : Q)
    : result Q :=
  let score := 0%Q in
  let discount := discount_percentage deal in
  let score :=
    if Qlt_le_dec 50 discount then (score + 40)%Q
    else if Qlt_le_dec 30 discount then (score + 30)%Q
    else if Qlt_le_dec 20 discount then (score + 20)%Q
    else (score + discount * (5 # 10))%Q in
  let hours := time_until_valid now deal in
  let score :=
    if Qlt_le_dec hours 24 then (score + 20)%Q
    else if Qlt_le_dec hours 72 then (score + 15)%Q
    else if Qlt_le_dec hours 168 then (score + 10)%Q
    else (score + 5)%Q in
  let! score :=
    match type (raw deal) with
    | Flight =>
        match raw_data (raw deal) with
        | None => Raise
        | Some row =>
            match available_seats row with
            | None => Raise
            | Some seats =>
                if (50 <? seats)%Z then Ok (score + 15)%Q
                else if (20 <? seats)%Z then Ok (score + 10)%Q
                else Ok (score + 5)%Q
            end
        end
    | Hotel => Ok (score + 15)%Q
    | Car => Ok score
    end in
  let score := (score + popularity_boost)%Q in
  Ok (round2 score).

(** [score_deals]; [draws k] is the popularity draw made for the [k]-th deal. *)
Definition score_deals (now : Z) (draws : nat -> Q) (normalized_deals : list Normalized)
    : result (list Scored) :=
  let! scored :=
    for_each (fun k deal =>
      let! score := calculate_deal_score now deal (draws k) in
      Ok {| normalized := deal; ai_score := score |}) 0 normalized_deals in
  Ok (sort_desc ai_score scored).

Definition tag_deal (now : Z) (deal : Scored) : result Tagged :=
  let n := normalized deal in
  let tags : list string := [] in
  let tags := if Qlt_le_dec 50 (discount_percentage n) then (tags ++ ["flash_deal"])%list else tags in
  let tags := if Qlt_le_dec (discount_percentage n) 15 then (tags ++ ["minor_discount"])%list else tags in
  let hours := time_until_valid now n in
  let tags :=
    if Qlt_le_dec hours 24 then (tags ++ ["expires_soon"])%list
    else if Qlt_le_dec hours 168 then (tags ++ ["limited_time"])%list
    else tags in
  let tags :=
    match type (raw n) with
    | Flight =>
        if Qlt_le_dec hours 48 then (tags ++ ["last_minute"])%list
        else (tags ++ ["advance_booking"])%list
    | Hotel => (tags ++ ["weekend_getaway"])%list
    | Car => tags
    end in
  let tags :=
    if Qlt_le_dec 80 (ai_score deal) then (tags ++ ["top_pick"])%list
    else if Qlt_le_dec 60 (ai_score deal) then (tags ++ ["good_value"])%list
    else tags in
  let conditions : list string := [] in
  let! conditions :=
    match type (raw n) with
    | Flight =>
        let conditions := (conditions ++ ["non-refundable"])%list in
        match raw_data (raw n) with
        | None => Raise
        | Some row =>
            match changeable row with
            | None => Raise
            | Some true => Ok (conditions ++ ["changeable with fee"])%list
            | Some false => Ok conditions
            end
        end
    | _ => Ok conditions
    end in
  Ok {| scored := deal; tags := tags; conditions := conditions |}.

Definition tag_deals (now : Z) (scored_deals : list Scored) : result (list Tagged) :=
  for_each (fun _ => tag_deal now) 0 scored_deals.

(** The four terms of the score, named as the specification names them. *)
Definition discount_points (deal : Normalized) : Q :=
  let discount := discount_percentage deal in
  if Qlt_le_dec 50 discount then 40
  else if Qlt_le_dec 30 discount then 30
  else if Qlt_le_dec 20 discount then 20
  else discount * (5 # 10).

Definition urgency_points (now : Z) (deal : Normalized) : Q :=
  let hours := time_until_valid now deal in
  if Qlt_le_dec hours 24 then 20
  else if Qlt_le_dec hours 72 then 15
  else if Qlt_le_dec hours 168 then 10
  else 5.

Definition availability_points (deal : Normalized) : Q :=
  match type (raw deal) with
  | Flight =>
      match raw_data (raw deal) with
      | Some {| available_seats := Some seats |} =>
          if (50 <? seats)%Z then 15 else if (20 <? seats)%Z then 10 else 5
      | _ => 0
      end
  | Hotel => 15
  | Car => 0
  end.

(** A flight deal can be scored when its source row is kept and has a seat
    count; the other types need nothing. *)
Definition seats_known (deal : Normalized) : Prop :=
  type (raw deal) = Flight ->
  exists row seats, raw_data (raw deal) = Some row /\ available_seats row = Some seats.

(** The inclusion laws on the tags of one deal. *)
Definition tag_laws (now : Z) (deal : Tagged) : Prop :=
  let n := normalized (scored deal) in
  ((50 < discount_percentage n)%Q -> In "flash_deal" (tags deal))
  /\ ((time_until_valid now n < 24)%Q -> In "expires_soon" (tags deal))
  /\ ((80 < ai_score (scored deal))%Q -> In "top_pick" (tags deal))
  /\ ((60 < ai_score (scored deal))%Q -> (ai_score (scored deal) <= 80)%Q ->
      In "good_value" (tags deal)).

End DealsWorker.


(** ** The concrete scenarios of the specification *)

Module Scenario.

(** A stand-in for the library functions, to run the services on concrete
    inputs: floats printed with one decimal (as Python prints the star
    ratings used here), the identity as digest, the route as canonical form
    of a request, and a codec that knows one response. *)
Definition one_decimal (q : Q) : string :=
  let tenths := Z.abs_N (round_half_even (q * 10)) in
  (if Qlt_le_dec q 0 then "-" else "")
  ++ str_N (N.div tenths 10) ++ "." ++ str_N (N.modulo tenths 10).

Definition runtime_with (known : option BundleResponse) : Runtime :=
  {| float_str := one_decimal;
     sha1_hexdigest := fun s => s;
     json_dumps_sorted := fun r => str_or (br_origin r) "" ++ "-" ++ br_destination r;
     model_dump_json := fun response => "{" ++ search_id response ++ "}";
     model_validate_json := fun raw =>
       match known with
       | Some response =>
           if String.eqb raw ("{" ++ search_id response ++ "}") then Ok response else Raise
       | None => Raise
       end |}.

Definition day (n : Z) : Z := timedelta_days n.

(** Scenario 1: SFO to LAX in 14 days, budget 1200, 4 or 5 stars. *)
Definition request : BundleRequest :=
  {| br_origin := Some "SFO";
     br_destination := "LAX";
     br_departure_date := day 14;
     br_return_date := Some (day 18);
     br_budget := 1200;
     br_preferences :=
       {| bp_flight_class := Economy;
          bp_hotel_star_rating := Some [4; 5];
          bp_amenities := None;
          bp_pet_friendly := None;
          bp_avoid_red_eye := None |};
     br_constraints := {| bc_adults := 2; bc_children := 0; bc_rooms := 1 |} |}.

Definition flight_1 : FlightOption :=
  {| fo_id := "flt-1"; fo_origin := "SFO"; fo_destination := "LAX";
     fo_departure_time := day 14; fo_arrival_time := day 14 + timedelta_hours 1;
     fo_airline := "TestAir"; fo_flight_class := Economy; fo_price := 320;
     fo_duration_minutes := 60; fo_seats_available := Some 20 |}.

Definition hotel_1 : HotelOption :=
  {| ho_id := "htl-1"; ho_name := "Hotel Test"; ho_star_rating := 4;
     ho_price_per_night := 180; ho_nights := 3; ho_amenities := ["wifi"];
     ho_neighborhood := Some "Downtown" |}.

Definition car_1 : CarOption :=
  {| co_id := "car-1"; co_provider := "TestCars"; co_car_type := "sedan";
     co_daily_price := 45; co_seats := 4; co_transmission := Some Automatic |}.

Definition uuids (n : nat) : string := "u" ++ str_N (N.of_nat n).

(** All three services answer with one option. *)
Definition env_up (clock_s : Z) : Env :=
  {| clock := clock_s;
     utcnow := 0;
     flights_service := fun _ _ => Some [flight_1];
     hotels_service := fun _ _ => Some [hotel_1];
     cars_service := fun _ _ => Some [car_1];
     uuid4_hex := uuids |}.

(** Scenario 5: the hotels service raises on every call. *)
Definition env_hotels_down : Env :=
  {| clock := 0;
     utcnow := 0;
     flights_service := fun _ _ => Some [flight_1];
     hotels_service := fun _ _ => None;
     cars_service := fun _ _ => Some [car_1];
     uuid4_hex := uuids |}.


Definition settings : Settings :=
  {| bundle_limit := 5; watch_poll_interval_seconds := 30 |}.

(** Scenarios 3 and 4: a hotel deal for LAX at 250 with a discount of 50. *)
Definition deal_event : DealEvent :=
  {| ev_deal_id := "d1";
     ev_type := Hotel;
     ev_destination := "LAX";
     ev_route := None;
     ev_summary := "Hotel Test spring sale";
     ev_price := {[ "original" := 300%Q; "deal" := 250%Q; "discount" := 50%Q ]};
     ev_tags := [];
     ev_score := 60;
     ev_valid_until := day 30;
     ev_inventory := None |}.

Definition deal_1 : CachedDeal :=
  {| cd_deal_id := "d1"; cd_type := Hotel; cd_destination := "LAX";
     cd_summary := "Hotel Test spring sale"; cd_payload := Some deal_event;
     cd_score := 60; cd_price_value := 250; cd_inventory := None;
     cd_valid_until := day 30; cd_updated_at := 0 |}.

(** A deal that expired at day 1 and outscores every other deal. *)
Definition deal_expired : CachedDeal :=
  {| cd_deal_id := "d0"; cd_type := Flight; cd_destination := "LAX";
     cd_summary := "Old fare"; cd_payload := None;
     cd_score := 90; cd_price_value := 400; cd_inventory := None;
     cd_valid_until := day 1; cd_updated_at := 0 |}.

Definition watch_1 : WatchRequest :=
  {| w_id := "watch_1"; w_user_id := "user-123"; w_destination := "LAX";
     w_budget_ceiling := 300; w_min_fit_score := 60;
     w_notify_on_inventory_below := Some 5; w_active := true;
     w_created_at := 0; w_last_triggered_at := None |}.

(** No deals, no cache client. *)
Definition store_plain : Store :=
  {| cached_deals := []; watch_requests := []; bundle_records := []; redis := None |}.

(** One deal, one watch, an empty live cache. *)
Definition store_live : Store :=
  {| cached_deals := [deal_1]; watch_requests := [watch_1]; bundle_records := [];
     redis := Some ∅ |}.

(** The response of scenario 1, and the runtime whose codec knows it. *)
Definition response_1 : BundleResponse :=
  @BundleEngine.build_response (runtime_with None) settings (env_up 0) request
    [flight_1] [hotel_1] [car_1] [deal_1].

Definition runtime : Runtime := runtime_with (Some response_1).

(** An intent whose extractor found a return date five days after the
    departure. *)
Definition intent : Chat.Intent :=
  {| Chat.in_destination := Some "LAX";
     Chat.in_origin := Some "SFO";
     Chat.in_departure_date := Some (day 14);
     Chat.in_return_date := Some (day 19);
     Chat.in_budget := 1200;
     Chat.in_adults := 1;
     Chat.in_children := 0;
     Chat.in_preferences :=
       {| Chat.ip_hotel_star_rating := None;
          Chat.ip_amenities := None;
          Chat.ip_pet_friendly := None;
          Chat.ip_avoid_red_eye := None;
          Chat.ip_flight_class := Some Economy |} |}.

(** A flight deal of the worker: 55 % off, expiring in 12 hours, 60 seats. *)
Definition worker_deal : DealsWorker.Normalized :=
  {| DealsWorker.raw :=
       {| DealsWorker.type := Flight;
          DealsWorker.reference_id := "f1";
          DealsWorker.original_price := 200;
          DealsWorker.deal_price := 90;
          DealsWorker.departure_time := Some (timedelta_hours 36);
          DealsWorker.raw_data :=
            Some {| DealsWorker.available_seats := Some 60;
                    DealsWorker.changeable := Some true |} |};
     DealsWorker.discount_percentage := 55;
     DealsWorker.valid_until := timedelta_hours 12;
     DealsWorker.confidence := 8 # 10 |}.

(** A flight candidate as the CSV ingestion builds it: no ['raw_data'] key. *)
Definition csv_flight_raw : DealsWorker.RawDeal :=
  {| DealsWorker.type := Flight;
     DealsWorker.reference_id := "sim_flight_0";
     DealsWorker.original_price := 400;
     DealsWorker.deal_price := 300;
     DealsWorker.departure_time := Some (day 30);
     DealsWorker.raw_data := None |}.

Definition csv_flight : DealsWorker.Normalized :=
  {| DealsWorker.raw := csv_flight_raw;
     DealsWorker.discount_percentage := round2 ((400 - 300) / 400 * 100);
     DealsWorker.valid_until := day 29;
     DealsWorker.confidence := 6 # 10 |}.

Definition worker_scored : DealsWorker.Scored :=
  {| DealsWorker.normalized := worker_deal; DealsWorker.ai_score := 85 |}.

(** The figures a bundle shows, in lowest terms. *)
Definition figures (B : Bundle) : Q * Q * Q * string :=
  (Qred (b_total_price B), Qred (b_savings B), Qred (b_fit_score B), b_explanation B).

End Scenario.

(** ** Further vocabulary and scenarios *)

(** A request without a signed-in user: no user id, or an empty one. *)
Definition anonymous (user_id : option string) : bool :=
  match user_id with
  | Some u => negb (truthy u)
  | None => true
  end.

(** The number of rows whose key is at least, or more than, the key of [x]. *)
Definition count_at_least {A : Type} (key : A -> Q) (x : A) (l : list A) : nat :=
  length (List.filter (fun y => Qle_bool (key x) (key y)) l).

Definition count_above {A : Type} (key : A -> Q) (x : A) (l : list A) : nat :=
  length (List.filter (fun y => negb (Qle_bool (key y) (key x))) l).

Module Degraded.


(** The hotels service raises on its first call and would answer on the
    second. *)
Definition env_hotels_flaky : Env :=
  {| clock := 0;
     utcnow := 0;
     flights_service := fun _ _ => Some [Scenario.flight_1];
     hotels_service := fun _ k => match k with O => None | S _ => Some [Scenario.hotel_1] end;
     cars_service := fun _ _ => Some [Scenario.car_1];
     uuid4_hex := Scenario.uuids |}.

(** A live cache whose entry for the scenario request does not decode. *)
Definition store_corrupt : Store :=
  {| cached_deals := []; watch_requests := []; bundle_records := [];
     redis := Some {[ "concierge:bundle:SFO-LAX" := ("not json", 1000) ]} |}.

End Degraded.


(** The registry holds no empty bucket. *)
Definition no_empty_bucket (conns : WebSocketManager.Connections) : Prop :=
  forall key sockets, conns !! key = Some sockets -> sockets <> [].

(** The channels registered for a user, those of ["anon"] for none. *)
Definition sockets_of (conns : WebSocketManager.Connections) (user_id : option string)
    : list nat :=
  default [] (conns !! str_or user_id "anon").

(** ** Deals worker: the stages in sequence ([deals-worker/src/index.py]) *)

Module Pipeline.
Import DealsWorker.

(** Steps 2 to 4 of [process_deals_pipeline]: what is handed to
    [persist_deals] and [emit_deal_events], or the exception that the
    pipeline's handler swallows.  Each stage reads the wall clock on its own. *)
Definition process_deals_pipeline (now_normalize now_score now_tag : Z)
    (draws : nat -> Q) (raw_deals : list RawDeal) : result (list Tagged) :=
  let! normalized_deals := normalize_deals now_normalize raw_deals in
  let! scored_deals := score_deals now_score draws normalized_deals in
  tag_deals now_tag scored_deals.

(** The raw candidate a tagged deal was made from. *)
Definition source (deal : Tagged) : RawDeal := raw (normalized (scored deal)).

(** A batch with a deal that some stage cannot process: a zero original
    price, or a flight whose source row is missing or lacks a field that is
    read. *)
Definition unprocessable (deal : RawDeal) : Prop :=
  (original_price deal == 0)%Q
  \/ (type deal = Flight
      /\ match raw_data deal with
         | None => True
         | Some row => available_seats row = None \/ changeable row = None
         end).

End Pipeline.

(** Decidable checks on a list of tags. *)
Definition mem (s : string) (l : list string) : bool := existsb (String.eqb s) l.

Fixpoint nodupb (l : list string) : bool :=
  match l with
  | [] => true
  | x :: r => negb (mem x r) && nodupb r
  end.

Definition tags_exclusive (l : list string) : bool :=
  nodupb l
  && (length l <=? 5)%nat
  && negb (mem "flash_deal" l && mem "minor_discount" l)
  && negb (mem "expires_soon" l && mem "limited_time" l)
  && negb (mem "last_minute" l && mem "advance_booking" l)
  && negb (mem "top_pick" l && mem "good_value" l).

(** ** Deal event consumer ([services/kafka.py]) *)

Module DealEventConsumer.

Definition max_retries : nat := 5.

(** The loop of [start] from attempt [attempt] on, [remaining] attempts being
    left; [connects k] tells whether the [k]-th attempt to start the consumer
    succeeds.  The result is the attempt on which the consumer started, if
    any, and the delays slept, in seconds. *)
Fixpoint start_from (connects : nat -> bool) (attempt remaining : nat) (retry_delay : Z)
    : option nat * list Z :=
  match remaining with
  | O => (None, [])
  | S remaining' =>
      if connects attempt then (Some attempt, [])
      else if (attempt <? max_retries - 1)%nat
           then
             let '(consumer, slept) :=
               start_from connects (S attempt) remaining' (retry_delay * 2) in
             (consumer, retry_delay :: slept)
           else (None, [])
  end.

Definition start (enabled : bool) (connects : nat -> bool) : option nat * list Z :=
  if enabled then start_from connects 0 max_retries 5 else (None, []).

Section WithDecoder.

(** The [DealEvent] built from [json.loads(message.value)]; [None] when
    either step raises. *)
Variable decode : string -> option DealEvent.

(** The body of the loop of [_consume] on one message, which arrives with
    the instant of its handling: an exception of any step is printed and the
    message is dropped. *)
Definition handle (table : list CachedDeal) (message : Z * string) : list CachedDeal :=
  match decode (snd message) with
  | None => table
  | Some event =>
      match DealCache.upsert_deal_event table (fst message) event with
      | Ok table' => table'
      | Raise => table
      end
  end.

Definition _consume (table : list CachedDeal) (messages : list (Z * string))
    : list CachedDeal :=
  fold_left handle messages table.

(** A message the loop acts on: it decodes to an event with a deal price. *)
Definition accepted (message : Z * string) : bool :=
  match decode (snd message) with
  | Some event =>
      match ev_price event !! "deal" with Some _ => true | None => false end
  | None => false
  end.

End WithDecoder.

End DealEventConsumer.

(** ** Saved bundles of a user ([DealCache.bundles_for_user]) *)

Module SavedBundles.

Section WithRuntime.
Context `{Runtime}.

Definition bundle_of_record (row : BundleRecord) : Bundle :=
  {| b_id := rec_id row;
     b_destination := rec_destination row;
     b_total_price := rec_total_price row;
     b_savings := rec_savings row;
     b_fit_score := rec_fit_score row;
     b_explanation := rec_explanation row;
     b_valid_until := rec_valid_until row;
     b_components := rec_components row |}.

(** The loop over the keys of the hot cache: empty and expired entries are
    passed over, an entry that does not validate raises. *)
Fixpoint read_cached (r : gmap string (string * Z)) (clock : Z) (keys : list string)
    : result (list Bundle) :=
  match keys with
  | [] => Ok []
  | key :: rest =>
      match redis_get r clock key with
      | Some raw =>
          if truthy raw
          then
            let! parsed := model_validate_json raw in
            let! more := read_cached r clock rest in
            Ok (bundles parsed ++ more)%list
          else read_cached r clock rest
      | None => read_cached r clock rest
      end
  end.

(** [SELECT ... WHERE user_id = ? ORDER BY created_at DESC LIMIT limit]. *)
Definition saved_rows (table : list BundleRecord) (user_id : string) (limit : nat)
    : list BundleRecord :=
  firstn limit
    (sort_desc (fun row => inject_Z (rec_created_at row))
       (List.filter
          (fun row =>
             match rec_user_id row with
             | Some u => String.eqb u user_id
             | None => false
             end) table)).

(** [bundles_for_user]; [keys] is the reply of the hot cache to
    [KEYS bundles:<user_id>:*]. *)
Definition bundles_for_user (st : Store) (clock : Z) (keys : list string)
    (user_id : string) (limit : nat) : result (list Bundle) :=
  let from_table := Ok (map bundle_of_record (saved_rows (bundle_records st) user_id limit)) in
  match redis st with
  | Some r =>
      let! found := read_cached r clock (firstn limit keys) in
      match found with
      | [] => from_table
      | _ :: _ => Ok (firstn limit found)
      end
  | None => from_table
  end.

End WithRuntime.

End SavedBundles.

(** ** Intent extraction without the model ([LLMService._fallback_extraction]) *)

Module Fallback.
Import Chat.

Definition destinations : list (string * string) :=
  [ ("paris", "CDG"); ("london", "LHR"); ("new york", "JFK"); ("tokyo", "NRT");
    ("los angeles", "LAX"); ("san francisco", "SFO"); ("miami", "MIA");
    ("chicago", "ORD"); ("seattle", "SEA"); ("boston", "BOS") ].

Section WithSearch.

(** The number found by the budget pattern in the lowered message, if the
    pattern matches. *)
Variable budget_search : string -> option Q.

Definition _fallback_extraction (now : Z) (message : string) : Intent :=
  let message_lower := lower message in
  let destination :=
    match List.find (fun entry => contains (fst entry) message_lower) destinations with
    | Some entry => Some (snd entry)
    | None => None
    end in
  let budget :=
    match budget_search message_lower with
    | Some b => b
    | None => 1000%Q
    end in
  let departure_date :=
    if contains "next week" message_lower then now + timedelta_days 7
    else if contains "next month" message_lower then now + timedelta_days 30
    else if contains "tomorrow" message_lower then now + timedelta_days 1
    else now + timedelta_days 14 in
  let preferences :=
    {| ip_hotel_star_rating :=
         if contains "luxury" message_lower || contains "5 star" message_lower
            || contains "premium" message_lower
         then Some [4; 5] else None;
       ip_amenities :=
         if contains "wifi" message_lower || contains "breakfast" message_lower
         then Some ["wifi"; "breakfast"] else None;
       ip_pet_friendly := if contains "pet" message_lower then Some true else None;
       ip_avoid_red_eye :=
         if contains "red eye" message_lower || contains "night flight" message_lower
         then Some true else None;
       ip_flight_class :=
         Some (if contains "business" message_lower then Business else Economy) |} in
  {| in_destination := Some (str_or destination "LAX");
     in_origin := None;
     in_departure_date := Some departure_date;
     in_return_date := Some (departure_date + timedelta_days 3);
     in_budget := budget;
     in_adults := 1;
     in_children := 0;
     in_preferences := preferences |}.

End WithSearch.

End Fallback.

(** ** Further scenarios *)

Module Cases.
Import Scenario.

(** A second deal for LAX, a flight, scoring above the hotel deal. *)
Definition deal_event_2 : DealEvent :=
  {| ev_deal_id := "d2";
     ev_type := Flight;
     ev_destination := "LAX";
     ev_route := Some "SFO-LAX";
     ev_summary := "TestAir SFO-LAX";
     ev_price := {[ "original" := 400%Q; "deal" := 280%Q; "discount" := 30%Q ]};
     ev_tags := [];
     ev_score := 70;
     ev_valid_until := day 20;
     ev_inventory := Some 12 |}.


(** A decoder that knows two messages. *)
Definition decode (value : string) : option DealEvent :=
  if String.eqb value "d1" then Some deal_event
  else if String.eqb value "d2" then Some deal_event_2
  else None.

(** The first attempt to reach the broker fails, the second succeeds. *)
Definition connects (attempt : nat) : bool := (1 <=? attempt)%nat.

End Cases.
(** * Properties *)

(** ** Rounding and formatting *)




Lemma round_half_even_between (a b : Z) (q : Q) :
  (inject_Z a <= q)%Q -> (q <= inject_Z b)%Q ->
  a <= round_half_even q <= b.
Proof.
  intros Ha Hb.
  pose proof (Qfloor_le q) as Hlo.
  assert (Hfa : a <= Qfloor q).
  { rewrite <- (Qfloor_Z a). now apply Qfloor_resp_le. }
  assert (Hfb : Qfloor q <= b).
  { rewrite <- (Qfloor_Z b). now apply Qfloor_resp_le. }
  unfold round_half_even.
  destruct (Qcompare (q - inject_Z (Qfloor q)) (1 # 2)) eqn:E.
  - apply Qeq_alt in E.
    assert (Qfloor q < b).
    { rewrite Zlt_Qlt. lra. }
    destruct (Z.even _); lia.
  - lia.
  - apply Qgt_alt in E.
    assert (Qfloor q < b).
    { rewrite Zlt_Qlt. lra. }
    lia.
Qed.



Lemma round2_between (a b : Z) (x : Q) :
  (inject_Z a <= x)%Q -> (x <= inject_Z b)%Q ->
  (inject_Z a <= round2 x)%Q /\ (round2 x <= inject_Z b)%Q.
Proof.
  intros Ha Hb.
  destruct (round_half_even_between (a * 100) (b * 100) (x * 100)) as [H1 H2].
  - rewrite inject_Z_mult. change (inject_Z 100) with 100%Q. lra.
  - rewrite inject_Z_mult. change (inject_Z 100) with 100%Q. lra.
  - unfold round2.
    rewrite Zle_Qle, inject_Z_mult in H1, H2.
    change (inject_Z 100) with 100%Q in *.
    set (r := inject_Z (round_half_even (x * 100))) in *.
    clearbody r. unfold Qdiv. change (/ 100)%Q with (1 # 100)%Q. split; lra.
Qed.



Example format_2f_250 : format_2f 250 = "250.00".
Proof. reflexivity. Qed.

Example format_2f_neg : format_2f (-(1234567 # 1000)) = "-1234.57".
Proof. reflexivity. Qed.

Example round2_tie :
  (round2 (1005 # 1000) == 1)%Q /\ (round2 (1015 # 1000) == 102 # 100)%Q.
Proof. split; reflexivity. Qed.

(** ** Stable descending sort *)

Section SortDescFacts.
Context {A : Type} (key : A -> Q).

Lemma insert_desc_perm (x : A) (l : list A) :
  Permutation (insert_desc key x l) (x :: l).
Proof.
  induction l as [|y r IH]; simpl; [reflexivity|].
  destruct (Qlt_le_dec (key x) (key y)); [|reflexivity].
  rewrite IH. apply perm_swap.
Qed.

Lemma sort_desc_perm (l : list A) : Permutation (sort_desc key l) l.
Proof.
  induction l as [|x r IH]; simpl; [reflexivity|].
  rewrite insert_desc_perm. now apply perm_skip.
Qed.

Lemma sort_desc_length (l : list A) : length (sort_desc key l) = length l.
Proof. apply Permutation_length, sort_desc_perm. Qed.

Lemma sort_desc_In (x : A) (l : list A) : In x (sort_desc key l) <-> In x l.
Proof.
  split; apply Permutation_in; [|symmetry]; apply sort_desc_perm.
Qed.

Lemma insert_desc_sorted (x : A) (l : list A) :
  descending key l -> descending key (insert_desc key x l).
Proof.
  unfold descending. induction l as [|y r IH]; intros Hs; simpl.
  - repeat constructor.
  - inversion Hs as [|? ? Hr Hy]; subst.
    destruct (Qlt_le_dec (key x) (key y)) as [Hlt|Hle].
    + constructor; [now apply IH|].
      rewrite List.Forall_forall. intros z Hz.
      apply (Permutation_in _ (insert_desc_perm x r)) in Hz.
      destruct Hz as [<-|Hz]; [now apply Qlt_le_weak|].
      rewrite List.Forall_forall in Hy. now apply Hy.
    + constructor; [assumption|].
      constructor; [assumption|].
      rewrite List.Forall_forall in Hy |- *. intros z Hz.
      apply Qle_trans with (key y); auto.
Qed.

Lemma sort_desc_sorted (l : list A) : descending key (sort_desc key l).
Proof.
  induction l as [|x r IH]; simpl; [constructor|].
  now apply insert_desc_sorted.
Qed.
End SortDescFacts.

Lemma round_half_even_comp (x y : Q) : (x == y)%Q -> round_half_even x = round_half_even y.
Proof.
  intros E. unfold round_half_even.
  rewrite (Qfloor_comp x y E).
  assert (Ec : Qcompare (x - inject_Z (Qfloor y)) (1 # 2)
               = Qcompare (y - inject_Z (Qfloor y)) (1 # 2)).
  { apply Qcompare_comp; [now rewrite E | reflexivity]. }
  now rewrite Ec.
Qed.

Lemma round2_comp (x y : Q) : (x == y)%Q -> (round2 x == round2 y)%Q.
Proof.
  intros E. unfold round2.
  rewrite (round_half_even_comp (x * 100) (y * 100)); [reflexivity | now rewrite E].
Qed.

(** ** Deals worker: scoring and tagging *)

Section Scoring.
Import DealsWorker.

Lemma discount_points_bounds (deal : Normalized) :
  (0 <= discount_percentage deal)%Q ->
  (0 <= discount_points deal)%Q /\ (discount_points deal <= 40)%Q.
Proof.
  intros Hd. unfold discount_points.
  repeat destruct (Qlt_le_dec _ _); split; lra.
Qed.

Lemma urgency_points_bounds (now : Z) (deal : Normalized) :
  (5 <= urgency_points now deal)%Q /\ (urgency_points now deal <= 20)%Q.
Proof.
  unfold urgency_points.
  repeat destruct (Qlt_le_dec _ _); split; lra.
Qed.

Lemma availability_points_bounds (deal : Normalized) :
  (0 <= availability_points deal)%Q /\ (availability_points deal <= 15)%Q.
Proof.
  unfold availability_points.
  destruct (type _); [destruct (raw_data _) as [[[s|] c]|]| |];
    repeat destruct (_ <? _)%Z; split; lra.
Qed.

Lemma calculate_deal_score_sum (now : Z) (deal : Normalized) (popularity_boost : Q) :
  seats_known deal ->
  exists raw_score,
    calculate_deal_score now deal popularity_boost = Ok (round2 raw_score)
    /\ (raw_score == discount_points deal + urgency_points now deal
                     + availability_points deal + popularity_boost)%Q.
Proof.
  intros Hs.
  unfold calculate_deal_score, discount_points, urgency_points,
    availability_points, seats_known in *.
  destruct (type (raw deal)).
  - destruct Hs as (row & seats & -> & Hseats); [reflexivity|].
    destruct row as [seats' ch]. simpl in Hseats. subst seats'. simpl.
    repeat destruct (Qlt_le_dec _ _); repeat destruct (_ <? _)%Z;
      simpl; eexists; (split; [reflexivity | ring]).
  - repeat destruct (Qlt_le_dec _ _);
      simpl; eexists; (split; [reflexivity | ring]).
  - repeat destruct (Qlt_le_dec _ _);
      simpl; eexists; (split; [reflexivity | ring]).
Qed.

(** The numerical content of the scoring rule.  For a normalized deal with a
    non-negative discount percentage and a popularity draw in [0, 20] whose
    seat count is known when it is a flight, [calculate_deal_score] returns a
    score in [0, 100]: the rounding of the sum of a discount term of at most
    40, an urgency term of at most 20, an availability term of at most 15
    and the popularity draw of at most 20. *)
Lemma calculate_deal_score_range (now : Z) (deal : Normalized) (popularity_boost : Q)
    (Hdiscount : (0 <= discount_percentage deal)%Q)
    (Hdraw : (0 <= popularity_boost)%Q /\ (popularity_boost <= 20)%Q)
    (Hseats : seats_known deal) :
  exists ai_score,
    calculate_deal_score now deal popularity_boost = Ok ai_score
    /\ (0 <= ai_score)%Q /\ (ai_score <= 100)%Q
    /\ (ai_score == round2 (discount_points deal + urgency_points now deal
                            + availability_points deal + popularity_boost))%Q
    /\ (discount_points deal <= 40)%Q
    /\ (urgency_points now deal <= 20)%Q
    /\ (availability_points deal <= 15)%Q
    /\ (popularity_boost <= 20)%Q.
Proof.
  destruct (calculate_deal_score_sum now deal popularity_boost Hseats)
    as (raw_score & Hcalc & Hsum).
  destruct (discount_points_bounds deal Hdiscount) as [Hd0 Hd1].
  destruct (urgency_points_bounds now deal) as [Hu0 Hu1].
  destruct (availability_points_bounds deal) as [Ha0 Ha1].
  destruct Hdraw as [Hp0 Hp1].
  exists (round2 raw_score). split; [exact Hcalc|].
  destruct (round2_between 0 100 raw_score) as [Hlo Hhi].
  { change (inject_Z 0) with 0%Q. lra. }
  { change (inject_Z 100) with 100%Q. lra. }
  change (inject_Z 0) with 0%Q in Hlo. change (inject_Z 100) with 100%Q in Hhi.
  repeat split; try assumption.
  now apply round2_comp.
Qed.

(** A flight deal whose source row is not kept cannot be scored: reading
    ['raw_data'] raises. *)
Lemma calculate_deal_score_no_raw_data (now : Z) (deal : Normalized) (popularity_boost : Q) :
  type (raw deal) = Flight -> raw_data (raw deal) = None ->
  calculate_deal_score now deal popularity_boost = Raise.
Proof.
  intros Htype Hraw. unfold calculate_deal_score. rewrite Htype, Hraw.
  repeat destruct (Qlt_le_dec _ _); reflexivity.
Qed.

(** C8.  On a flight deal mined from the CSV datasets, which carries no
    ['raw_data'] key, [calculate_deal_score] raises instead of returning a
    score, although the deal is normalized, its discount is 25 and the
    popularity draw 10 lies in [0, 20]. *)
Theorem calculate_deal_score_raises_on_csv_flight :
  normalize_deal 0 Scenario.csv_flight_raw = Ok Scenario.csv_flight
  /\ (0 <= discount_percentage Scenario.csv_flight)%Q
  /\ (0 <= 10)%Q /\ (10 <= 20)%Q
  /\ calculate_deal_score 0 Scenario.csv_flight 10 = Raise
  /\ score_deals 0 (fun _ => 10%Q) [Scenario.worker_deal; Scenario.csv_flight] = Raise.
Proof.
  vm_compute. repeat split; try reflexivity; discriminate.
Qed.

End Scoring.

Section Tagging.
Import DealsWorker.

Lemma for_each_In {A B : Type} (f : nat -> A -> result B) (l : list A) :
  forall (k : nat) (out : list B),
    for_each f k l = Ok out ->
    forall y, In y out -> exists j x, In x l /\ f j x = Ok y.
Proof.
  induction l as [|x r IH]; intros k out Hrun y Hy; simpl in Hrun.
  - inversion Hrun; subst. contradiction.
  - destruct (f k x) as [y0|] eqn:Hx; simpl in Hrun; [|discriminate].
    destruct (for_each f (S k) r) as [ys|] eqn:Hr; simpl in Hrun; [|discriminate].
    inversion Hrun; subst. destruct Hy as [<-|Hy].
    + exists k, x. split; [now left | assumption].
    + destruct (IH _ _ Hr y Hy) as (j & x' & Hin & Hf).
      exists j, x'. split; [now right | assumption].
Qed.

Lemma for_each_length {A B : Type} (f : nat -> A -> result B) (l : list A) :
  forall (k : nat) (out : list B), for_each f k l = Ok out -> length out = length l.
Proof.
  induction l as [|x r IH]; intros k out Hrun; simpl in Hrun.
  - now inversion Hrun.
  - destruct (f k x) as [y0|]; simpl in Hrun; [|discriminate].
    destruct (for_each f (S k) r) as [ys|] eqn:Hr; simpl in Hrun; [|discriminate].
    inversion Hrun; subst. simpl. f_equal. eauto.
Qed.

Lemma tag_deal_laws (now : Z) (deal : Scored) (out : Tagged) :
  tag_deal now deal = Ok out -> scored out = deal /\ tag_laws now out.
Proof.
  unfold tag_deal, tag_laws. intros Hrun.
  match type of Hrun with
  | bind ?c _ = _ => destruct c as [conds|] eqn:Hc; simpl in Hrun; [|discriminate]
  end.
  inversion Hrun; subst out; clear Hrun Hc. simpl.
  split; [reflexivity|].
  repeat destruct (Qlt_le_dec _ _); destruct (type _);
    repeat destruct (Qlt_le_dec _ _);
    simpl; repeat split; intros; try lra; tauto.
Qed.

(** C7.  Every deal the tagging stage emits is one of the scored deals and
    carries ["flash_deal"] when its discount exceeds 50, ["expires_soon"]
    when it expires in less than 24 hours, ["top_pick"] when its score
    exceeds 80 and ["good_value"] when its score is in (60, 80]. *)
Theorem tag_deals_laws (now : Z) (scored_deals : list Scored) (tagged : list Tagged)
    (Hrun : tag_deals now scored_deals = Ok tagged) :
  length tagged = length scored_deals
  /\ forall deal, In deal tagged ->
       In (scored deal) scored_deals /\ tag_laws now deal.
Proof.
  unfold tag_deals in Hrun. split.
  - eapply for_each_length; eassumption.
  - intros deal Hin.
    destruct (for_each_In _ _ _ _ Hrun deal Hin) as (j & x & Hx & Hf).
    destruct (tag_deal_laws now x deal Hf) as [<- Hlaws].
    split; assumption.
Qed.

End Tagging.

(** ** Upstream fetches never raise *)

Section Fetch.
Import http_clients.

Lemma retry_first {A : Type} (n : nat) (call : nat -> result A) (k : nat) (a : A) :
  call k = Ok a -> retry (S n) call k = Ok a.
Proof. intros Hc. simpl. now rewrite Hc. Qed.

Lemma or_fallback_nonempty {A : Type} (items fallback : list A) :
  fallback <> [] -> or_fallback items fallback <> [].
Proof. destruct items; simpl; [auto | discriminate]. Qed.

Lemma fetch_flights_total (up : Upstream FlightOption) (request : BundleRequest) :
  exists flights, fetch_flights up request = Ok flights /\ flights <> [].
Proof.
  unfold fetch_flights, fetch_flights_body. simpl.
  destruct (up _ 0%nat) as [items|]; eexists; (split; [reflexivity|]).
  - apply or_fallback_nonempty. discriminate.
  - discriminate.
Qed.

Lemma fetch_hotels_total (up : Upstream HotelOption) (request : BundleRequest) :
  exists hotels, fetch_hotels up request = Ok hotels /\ hotels <> [].
Proof.
  unfold fetch_hotels, fetch_hotels_body. simpl.
  destruct (up _ 0%nat) as [items|]; eexists; (split; [reflexivity|]).
  - apply or_fallback_nonempty. discriminate.
  - discriminate.
Qed.

Lemma fetch_cars_total (up : Upstream CarOption) (request : BundleRequest) :
  exists cars, fetch_cars up request = Ok cars /\ cars <> [].
Proof.
  unfold fetch_cars, fetch_cars_body. simpl.
  destruct (up _ 0%nat) as [items|]; eexists; (split; [reflexivity|]).
  - apply or_fallback_nonempty. discriminate.
  - discriminate.
Qed.




End Fetch.

Lemma In_firstn {A : Type} (n : nat) (l : list A) (x : A) :
  In x (firstn n l) -> In x l.
Proof.
  intros Hin. rewrite <- (firstn_skipn n l). apply in_or_app. now left.
Qed.

Lemma StronglySorted_firstn_desc {A : Type} (key : A -> Q) (n : nat) (l : list A) :
  descending key l -> descending key (firstn n l).
Proof.
  unfold descending. revert n. induction l as [|x r IH]; intros n Hs.
  - rewrite firstn_nil. constructor.
  - destruct n as [|n]; simpl; [constructor|].
    inversion Hs as [|? ? Hr Hx]; subst.
    constructor; [now apply IH|].
    rewrite List.Forall_forall in Hx |- *. intros y Hy.
    apply Hx. eapply In_firstn. eassumption.
Qed.

(** ** Bundle engine: candidates and their invariants *)

Section Bundles.
Context `{Runtime}.
Import BundleEngine.











Lemma choices_nonempty (flights : list FlightOption) (hotels : list HotelOption)
    (cars : list CarOption) :
  flights <> [] -> hotels <> [] -> cars <> [] -> choices flights hotels cars <> [].
Proof.
  destruct flights as [|f fs]; [congruence|].
  destruct hotels as [|h hs]; [congruence|].
  destruct cars as [|c cs]; [congruence|].
  intros _ _ _. unfold choices. simpl. discriminate.
Qed.

Lemma choices_length (flights : list FlightOption) (hotels : list HotelOption)
    (cars : list CarOption) :
  (length (choices flights hotels cars) <= 18)%nat.
Proof.
  unfold choices.
  assert (Hc : (length (firstn 2 cars) <= 2)%nat) by apply firstn_le_length.
  assert (Hh : (length (firstn 3 hotels) <= 3)%nat) by apply firstn_le_length.
  assert (Hf : (length (firstn 3 flights) <= 3)%nat) by apply firstn_le_length.
  destruct (firstn 3 flights) as [|f1 [|f2 [|f3 [|]]]]; simpl in Hf; try lia;
    destruct (firstn 3 hotels) as [|h1 [|h2 [|h3 [|]]]]; simpl in Hh; try lia;
    simpl; rewrite ?length_app, ?length_map; simpl; lia.
Qed.


Lemma build_response_length (settings : Settings) (env : Env) (request : BundleRequest)
    (flights : list FlightOption) (hotels : list HotelOption) (cars : list CarOption)
    (deals : list CachedDeal) :
  length (bundles (build_response settings env request flights hotels cars deals))
  = Nat.min (bundle_limit settings) (length (choices flights hotels cars))
  /\ total_results (build_response settings env request flights hotels cars deals)
     = length (bundles (build_response settings env request flights hotels cars deals)).
Proof.
  unfold build_response. cbn [bundles total_results]. split; [|reflexivity].
  now rewrite length_firstn, sort_desc_length, length_imap.
Qed.



(** On a miss the three fetches succeed with non-empty lists and the
    response is the one built from them. *)
Lemma generate_miss (settings : Settings) (st : Store) (env : Env)
    (request : BundleRequest) (user_id : option string) :
  _cached_response st (clock env) (_cache_key request) = Ok None ->
  exists flights hotels cars,
    http_clients.fetch_flights (flights_service env) request = Ok flights
    /\ http_clients.fetch_hotels (hotels_service env) request = Ok hotels
    /\ http_clients.fetch_cars (cars_service env) request = Ok cars
    /\ flights <> [] /\ hotels <> [] /\ cars <> []
    /\ let response :=
         build_response settings env request flights hotels cars
           (DealCache.top_deals (cached_deals st) (Some (br_destination request)) 5) in
       generate settings st env request user_id
       = Ok (response, store_after st env request user_id response).
Proof.
  intros Hmiss.
  destruct (fetch_flights_total (flights_service env) request) as (flights & Hf & Hfn).
  destruct (fetch_hotels_total (hotels_service env) request) as (hotels & Hh & Hhn).
  destruct (fetch_cars_total (cars_service env) request) as (cars & Hc & Hcn).
  exists flights, hotels, cars. repeat (split; [assumption|]).
  unfold generate, _gather_inventory. rewrite Hmiss, Hf, Hh, Hc. reflexivity.
Qed.


End Bundles.

(** ** Bundle engine: what [generate] returns *)

Section Generate.
Context `{Runtime}.
Import BundleEngine.



End Generate.

Section Fallback.
Context `{Runtime}.
Import BundleEngine http_clients.


End Fallback.

(** ** Bundle engine: the deal overlay *)

Section Overlay.
Context `{Runtime}.
Import BundleEngine.




End Overlay.

(** ** Bundle engine: the hot cache *)

Section HotCache.
Context `{Runtime}.
Import BundleEngine.






End HotCache.

(** ** Deal cache: top deals *)

Section TopDeals.
Import DealCache.

Lemma descending_app {A : Type} (key : A -> Q) (l1 l2 : list A) :
  descending key (l1 ++ l2) ->
  forall x y, In x l1 -> In y l2 -> (key y <= key x)%Q.
Proof.
  unfold descending. induction l1 as [|a l1 IH]; intros Hs x y Hx Hy; [contradiction|].
  simpl in Hs. inversion Hs as [|? ? Hr Ha]; subst.
  destruct Hx as [<-|Hx].
  - rewrite List.Forall_forall in Ha. apply Ha. apply in_or_app. now right.
  - now apply IH.
Qed.

(** C4, as the code has it.  [top_deals] ranges over every cached deal of
    the destination (every cached deal when no destination, or an empty
    one, is given), expired or not: it returns [min(limit, number of
    rows)] of them in descending score order, and no row left out has a
    higher score than a row returned. *)
Theorem top_deals_highest_scores (table : list CachedDeal)
    (destination : option string) (limit : nat) :
  let rows := matching_rows table destination in
  let top := top_deals table destination limit in
  exists rest,
    Permutation (top ++ rest) rows
    /\ length top = Nat.min limit (length rows)
    /\ descending cd_score top
    /\ (forall deal other, In deal top -> In other rest ->
          (cd_score other <= cd_score deal)%Q)
    /\ (forall deal, In deal top ->
          In deal table
          /\ forall d, destination = Some d -> truthy d = true ->
               cd_destination deal = d).
Proof.
  intros rows top.
  assert (Htop : top = firstn limit (sort_desc cd_score rows)).
  { unfold top, top_deals, rows, matching_rows.
    destruct destination as [d|]; [destruct (truthy d)|]; reflexivity. }
  exists (skipn limit (sort_desc cd_score rows)).
  rewrite Htop, firstn_skipn.
  split; [apply sort_desc_perm|].
  split; [now rewrite length_firstn, sort_desc_length|].
  split; [apply StronglySorted_firstn_desc, sort_desc_sorted|].
  split.
  - apply descending_app. rewrite firstn_skipn. apply sort_desc_sorted.
  - intros deal Hin. apply In_firstn, sort_desc_In in Hin.
    unfold rows, matching_rows in Hin.
    destruct destination as [d|]; [destruct (truthy d) eqn:Hd|].
    + apply filter_In in Hin. destruct Hin as [Hin Heq].
      split; [exact Hin|]. intros d' [= <-] _. now apply String.eqb_eq.
    + split; [exact Hin|]. intros d' [= <-] Ht. congruence.
    + split; [exact Hin|]. discriminate.
Qed.

End TopDeals.

(** ** Watch evaluator *)

Section Watches.
Import DealCache.

Lemma group_by_destination_fold (deals : list CachedDeal) (destination : string) :
  forall deal_map : gmap string (list CachedDeal),
    default [] (fold_left
      (fun deal_map deal =>
         <[cd_destination deal :=
             (default [] (deal_map !! cd_destination deal) ++ [deal])%list]> deal_map)
      deals deal_map !! destination)
    = (default [] (deal_map !! destination)
       ++ List.filter (fun deal => String.eqb (cd_destination deal) destination) deals)%list.
Proof.
  induction deals as [|deal rest IH]; intros deal_map; simpl.
  - now rewrite app_nil_r.
  - rewrite IH.
    destruct (String.eqb_spec (cd_destination deal) destination) as [->|Hne].
    + rewrite lookup_insert_eq. simpl. now rewrite <- app_assoc.
    + now rewrite lookup_insert_ne.
Qed.

(** The bucket the evaluator reads from its dictionary is the sub-list of
    the top deals with that destination. *)
Lemma group_by_destination_lookup (deals : list CachedDeal) (destination : string) :
  default [] (group_by_destination deals !! destination)
  = List.filter (fun deal => String.eqb (cd_destination deal) destination) deals.
Proof.
  unfold group_by_destination. rewrite group_by_destination_fold.
  now rewrite lookup_empty.
Qed.

Lemma scan_bucket_find (watch : WatchRequest) (deals : list CachedDeal) :
  scan_bucket watch deals
  = match List.find (fun deal => Qle_bool (cd_price_value deal) (w_budget_ceiling watch))
            deals with
    | Some deal => [(watch, deal)]
    | None => []
    end.
Proof.
  induction deals as [|deal rest IH]; simpl; [reflexivity|].
  destruct (Qle_bool _ _); [reflexivity | exact IH].
Qed.

Lemma triggered_pairs_spec (st : Store) (watches : list WatchRequest) :
  triggered_pairs watches (group_by_destination (top_deals (cached_deals st) None 5))
  = flat_map (pairs_of st) watches.
Proof.
  unfold triggered_pairs. apply flat_map_ext. intros watch.
  rewrite group_by_destination_lookup, scan_bucket_find. reflexivity.
Qed.

Lemma pairs_of_fst (st : Store) (watch : WatchRequest) (pair : WatchRequest * CachedDeal) :
  In pair (pairs_of st watch) -> fst pair = watch.
Proof.
  unfold pairs_of. destruct (first_affordable st watch); simpl; [|contradiction].
  intros [<-|[]]. reflexivity.
Qed.

Lemma unique_key {A : Type} (f : A -> string) (l : list A) (x y : A) :
  List.NoDup (map f l) -> In x l -> In y l -> f x = f y -> x = y.
Proof.
  induction l as [|a l IH]; intros Hnd Hx Hy Hf; [contradiction|].
  simpl in Hnd. apply NoDup_cons_iff in Hnd. destruct Hnd as [Hna Hnd].
  destruct Hx as [->|Hx], Hy as [->|Hy].
  - reflexivity.
  - exfalso. apply Hna. rewrite Hf. now apply in_map.
  - exfalso. apply Hna. rewrite <- Hf. now apply in_map.
  - now apply IH.
Qed.

Lemma fire_id (now : Z) (watch : WatchRequest) : w_id (fire now watch) = w_id watch.
Proof. reflexivity. Qed.

Lemma fire_ids_keys (now : Z) (ids : list string) (table : list WatchRequest) :
  map w_id (fire_ids now ids table) = map w_id table.
Proof.
  unfold fire_ids. rewrite map_map. apply map_ext. intros row.
  now destruct (existsb _ ids).
Qed.

Lemma existsb_snoc (key : string) (ids : list string) (id : string) :
  existsb (String.eqb key) (ids ++ [id]) = existsb (String.eqb key) ids || String.eqb key id.
Proof. rewrite existsb_app. simpl. now rewrite orb_false_r. Qed.

(** Merging the fired version of a row of the table fires that row and no
    other. *)
Lemma merge_fire (now : Z) (ids : list string) (table : list WatchRequest)
    (watch : WatchRequest) :
  List.NoDup (map w_id table) -> In watch table ->
  merge (fire_ids now ids table) (fire now watch)
  = fire_ids now (ids ++ [w_id watch]) table.
Proof.
  intros Hnd Hin. unfold merge.
  assert (Hex : existsb (fun row => String.eqb (w_id row) (w_id (fire now watch)))
                  (fire_ids now ids table) = true).
  { apply existsb_exists.
    exists (if existsb (String.eqb (w_id watch)) ids then fire now watch else watch).
    split.
    - unfold fire_ids. apply in_map_iff. exists watch. split; [reflexivity | exact Hin].
    - destruct (existsb _ ids); apply String.eqb_refl. }
  rewrite Hex. unfold fire_ids. rewrite map_map. apply map_ext_in.
  intros row Hrow. rewrite existsb_snoc.
  assert (Hid : w_id (if existsb (String.eqb (w_id row)) ids then fire now row else row)
                = w_id row) by (now destruct (existsb _ ids)).
  rewrite Hid, fire_id.
  destruct (String.eqb_spec (w_id row) (w_id watch)) as [Heq|Hne].
  - rewrite orb_true_r.
    now rewrite (unique_key w_id table row watch Hnd Hrow Hin Heq).
  - now rewrite orb_false_r.
Qed.

Lemma fold_merge_fire (now : Z) (table : list WatchRequest)
    (triggered : list (WatchRequest * CachedDeal)) :
  List.NoDup (map w_id table) ->
  (forall pair, In pair triggered -> In (fst pair) table) ->
  fold_left (fun table pair => merge table (fire now (fst pair))) triggered table
  = fire_ids now (map (fun pair => w_id (fst pair)) triggered) table.
Proof.
  intros Hnd. induction triggered as [|pair rest IH] using rev_ind; intros Hin.
  - simpl. unfold fire_ids. simpl. now rewrite map_id.
  - rewrite fold_left_app. simpl. rewrite IH.
    + rewrite map_app. simpl. apply merge_fire; [exact Hnd|].
      apply Hin, in_or_app. right. now left.
    + intros p Hp. apply Hin, in_or_app. now left.
Qed.

Lemma fire_ids_nil (now : Z) (table : list WatchRequest) : fire_ids now [] table = table.
Proof. unfold fire_ids. simpl. apply map_id. Qed.


(** What one evaluation does, in closed form. *)
Lemma evaluate_watches_closed (st : Store) (conns : WebSocketManager.Connections)
    (now : Z) :
  List.NoDup (map w_id (watch_requests st)) ->
  let triggered := flat_map (pairs_of st) (List.filter w_active (watch_requests st)) in
  let tick := evaluate_watches st conns now in
  watch_requests (tick_store tick)
  = fire_ids now (map (fun pair => w_id (fst pair)) triggered) (watch_requests st)
  /\ tick_broadcasts tick
     = map (fun pair => (alert now pair, w_user_id (fst pair))) triggered.
Proof.
  intros Hnd triggered tick. unfold tick, evaluate_watches, triggered.
  destruct (List.filter w_active (watch_requests st)) as [|w ws] eqn:Hact.
  - simpl. now rewrite fire_ids_nil.
  - rewrite triggered_pairs_spec.
    destruct (flat_map (pairs_of st) (w :: ws)) as [|pair rest] eqn:Htrig.
    + simpl. now rewrite fire_ids_nil.
    + cbn [tick_store tick_broadcasts watch_requests]. split; [|reflexivity].
      apply fold_merge_fire; [exact Hnd|].
      intros p Hp. rewrite <- Htrig in Hp. apply in_flat_map in Hp.
      destruct Hp as (x & Hx & Hp). apply pairs_of_fst in Hp. rewrite Hp.
      rewrite <- Hact in Hx. apply filter_In in Hx. tauto.
Qed.

Lemma alert_watch_id (now : Z) (pair : WatchRequest * CachedDeal) :
  we_watch_id (frame_data (alert now pair)) = w_id (fst pair).
Proof. now destruct pair. Qed.





End Watches.

(** ** Chat endpoint *)

Section ChatRequest.
Import Chat.

(** C9, as the code has it.  The request rebuilt from an intent departs on
    the intent's departure date and returns on the return date the
    extractor gave when it gave one; three days after the departure is
    used only when the intent has no return date. *)
Theorem chat_request_return_date (intent : Intent) (request : BundleRequest)
    (Hrequest : bundle_request_of intent = Request request) :
  in_departure_date intent = Some (br_departure_date request)
  /\ match in_return_date intent with
     | Some return_date => br_return_date request = Some return_date
     | None =>
         br_return_date request = Some (br_departure_date request + timedelta_days 3)
     end.
Proof.
  unfold bundle_request_of in Hrequest.
  destruct (in_destination intent) as [destination|]; [|discriminate].
  destruct (in_departure_date intent) as [departure|]; [|discriminate].
  destruct (truthy destination); [|discriminate].
  destruct (ip_flight_class _); [|discriminate].
  destruct (BundleRequest_valid _); [|discriminate].
  injection Hrequest as <-. cbn [br_departure_date br_return_date].
  split; [reflexivity|]. now destruct (in_return_date intent).
Qed.

(** The extractor itself fills a missing return date with the departure
    plus three days, and keeps a return date the model gave. *)
Lemma intent_of_parsed_return_date (parsed : Intent) :
  in_return_date (intent_of_parsed parsed)
  = match in_return_date parsed, in_departure_date parsed with
    | Some r, _ => Some r
    | None, Some d => Some (d + timedelta_days 3)
    | None, None => None
    end.
Proof. unfold intent_of_parsed. cbn. now destruct (in_return_date parsed). Qed.

End ChatRequest.

(** ** The scenarios of the specification, run on the model *)

Section Scenarios.
Import Scenario.

(** Scenario 1: one option per service and no deal: total 995, savings
    149.25 = 597/4, fit score 39.27. *)
Example scenario_happy_path :
  match @BundleEngine.generate runtime settings store_plain (env_up 0) request None with
  | Ok (response, _) =>
      map figures (bundles response)
      = [(995%Q, 597 # 4, 3927 # 100, "Balanced itinerary with matched preferences")]
      /\ map b_valid_until (bundles response) = [day 13]
  | Raise => False
  end.
Proof. vm_compute. split; reflexivity. Qed.

(** Scenario 3: the hotel deal adds 50 to the savings (199.25 = 797/4) and
    25 to the score. *)
Example scenario_deal_overlay :
  map figures (bundles response_1)
  = [(995%Q, 797 # 4, 6427 # 100, "Hotel deal: Hotel Test spring sale")].
Proof. vm_compute. reflexivity. Qed.

(** Scenario 4: the watch at 300 fires on the deal at 250. *)
Example scenario_watch_trigger :
  let tick := DealCache.evaluate_watches store_live {[ "user-123" := [7%nat] ]} 0 in
  map (fun call => (we_message (frame_data (fst call)), snd call)) (DealCache.tick_broadcasts tick)
  = [("Deal d1 now $250.00", "user-123")]
  /\ map fst (DealCache.tick_sent tick) = [7%nat]
  /\ map (fun w => (w_active w, w_last_triggered_at w)) (watch_requests (DealCache.tick_store tick))
     = [(false, Some 0)].
Proof. vm_compute. repeat split; reflexivity. Qed.

(** Scenario 5: the hotels service is down. *)
Example scenario_hotels_down :
  match @BundleEngine.generate runtime settings store_plain env_hotels_down request None with
  | Ok (response, _) =>
      map (fun B => map cmp_summary (b_components B)) (bundles response)
      = [["TestAir SFO→LAX"; "Kayak Grand · 4.5★"; "TestCars sedan"]]
  | Raise => False
  end.
Proof. vm_compute. reflexivity. Qed.

End Scenarios.

(** ** Where the code departs from the specification's words *)

(** C4, as stated, fails: a deal that expired at day 1 is returned at day 2,
      ahead of the live deal, where the specification's reading keeps only
      the live deal. *)
Lemma top_deals_returns_expired :
  let table := [Scenario.deal_expired; Scenario.deal_1] in
  let now := Scenario.day 2 in
  DealCache.top_deals table (Some "LAX") 5 = [Scenario.deal_expired; Scenario.deal_1]
  /\ cd_valid_until Scenario.deal_expired < now
  /\ DealCache.top_deals_spec now table (Some "LAX") 5 = [Scenario.deal_1]
  /\ DealCache.top_deals table (Some "LAX") 5
     <> DealCache.top_deals_spec now table (Some "LAX") 5.
Proof.
  vm_compute. repeat split; try reflexivity. discriminate.
Qed.

(** C9, as stated, fails: the extractor returned a return date five days
      after the departure and the rebuilt request carries that date, not the
      departure plus three days. *)
Lemma chat_request_keeps_return_date :
  exists request,
    Chat.bundle_request_of Scenario.intent = Chat.Request request
    /\ br_return_date request = Some (br_departure_date request + timedelta_days 5)
    /\ br_return_date request <> Some (br_departure_date request + timedelta_days 3).
Proof.
  eexists. split; [vm_compute; reflexivity|].
  split; [reflexivity | discriminate].
Qed.

(** ** The theorems at the scenarios *)

Section Witnesses.
Import Scenario.







Lemma tag_deals_laws_witness :
  exists tagged,
    DealsWorker.tag_deals 0 [worker_scored] = Ok tagged
    /\ Forall (DealsWorker.tag_laws 0) tagged
    /\ map DealsWorker.tags tagged
       = [["flash_deal"; "expires_soon"; "last_minute"; "top_pick"]].
Proof.
  eexists. split; [vm_compute; reflexivity|]. split; [|reflexivity].
  apply List.Forall_forall. intros deal Hdeal.
  refine (proj2 (proj2 (tag_deals_laws 0 [worker_scored] _ _) deal Hdeal)).
  vm_compute. reflexivity.
Defined.

Lemma calculate_deal_score_range_db_flight :
  exists ai_score,
    DealsWorker.calculate_deal_score 0 worker_deal 10 = Ok ai_score
    /\ (0 <= ai_score)%Q /\ (ai_score <= 100)%Q.
Proof.
  assert (Hseats : DealsWorker.seats_known worker_deal).
  { intros _. eexists _, _. split; reflexivity. }
  destruct (calculate_deal_score_range 0 worker_deal 10) as (s & Hs & H0 & H100 & _).
  - vm_compute. discriminate.
  - split; vm_compute; discriminate.
  - exact Hseats.
  - exists s. auto.
Defined.

Lemma chat_request_return_date_witness :
  exists request,
    Chat.bundle_request_of intent = Chat.Request request
    /\ br_return_date request = Some (day 19).
Proof.
  eexists. split; [vm_compute; reflexivity|].
  refine (proj2 (chat_request_return_date intent _ _)).
  vm_compute. reflexivity.
Defined.

End Witnesses.

(** * Further properties of the code *)

(** ** Bundle engine: ranking, counts and side effects *)

Section EngineMore.
Context `{Runtime}.
Import BundleEngine.

Lemma flat_map_length_const {A B : Type} (f : A -> list B) (n : nat) (l : list A) :
  (forall x, length (f x) = n) -> length (flat_map f l) = (length l * n)%nat.
Proof.
  intros Hf. induction l as [|x r IH]; simpl; [reflexivity|].
  rewrite length_app, Hf, IH. lia.
Qed.

Lemma choices_count (flights : list FlightOption) (hotels : list HotelOption)
    (cars : list CarOption) :
  length (choices flights hotels cars)
  = (Nat.min 3 (length flights) * (Nat.min 3 (length hotels) * Nat.min 2 (length cars)))%nat.
Proof.
  unfold choices.
  rewrite (flat_map_length_const _
             (Nat.min 3 (length hotels) * Nat.min 2 (length cars))).
  - now rewrite length_firstn.
  - intros flight.
    rewrite (flat_map_length_const _ (Nat.min 2 (length cars))).
    + now rewrite length_firstn.
    + intros hotel. now rewrite length_map, length_firstn.
Qed.

(** The number of bundles returned on a miss: the product of the prefixes
    taken from the three inventories, cut at the bundle limit; never more
    than 18. *)
Theorem generate_bundle_count (settings : Settings) (st st' : Store) (env : Env)
    (request : BundleRequest) (user_id : option string) (response : BundleResponse)
    (flights : list FlightOption) (hotels : list HotelOption) (cars : list CarOption)
    (Hmiss : _cached_response st (clock env) (_cache_key request) = Ok None)
    (Hinventory : _gather_inventory env request = Ok (flights, hotels, cars))
    (Hrun : generate settings st env request user_id = Ok (response, st')) :
  length (bundles response)
  = Nat.min (bundle_limit settings)
      (Nat.min 3 (length flights) * (Nat.min 3 (length hotels) * Nat.min 2 (length cars)))
  /\ (length (bundles response) <= 18)%nat
  /\ total_results response = length (bundles response).
Proof.
  unfold generate in Hrun. rewrite Hmiss, Hinventory in Hrun. simpl in Hrun.
  injection Hrun as Hresp _. subst response.
  destruct (build_response_length settings env request flights hotels cars
              (DealCache.top_deals (cached_deals st) (Some (br_destination request)) 5))
    as [Hlen Htot].
  rewrite Htot, Hlen, choices_count.
  split; [reflexivity|]. split; [|reflexivity].
  pose proof (Nat.le_min_l 3 (length flights)) as Hf.
  pose proof (Nat.le_min_l 3 (length hotels)) as Hh.
  pose proof (Nat.le_min_l 2 (length cars)) as Hc.
  pose proof (Nat.mul_le_mono _ _ _ _ Hh Hc) as Hhc.
  pose proof (Nat.mul_le_mono _ _ _ _ Hf Hhc) as Hall.
  change (3 * (3 * 2))%nat with 18%nat in Hall.
  etransitivity; [apply Nat.le_min_r | exact Hall].
Qed.

(** The bundles a miss returns are ranked: they come in descending fit-score
    order and every candidate that was cut off scores no higher than any
    bundle kept. *)
Theorem generate_ranked (settings : Settings) (st st' : Store) (env : Env)
    (request : BundleRequest) (user_id : option string) (response : BundleResponse)
    (flights : list FlightOption) (hotels : list HotelOption) (cars : list CarOption)
    (Hmiss : _cached_response st (clock env) (_cache_key request) = Ok None)
    (Hinventory : _gather_inventory env request = Ok (flights, hotels, cars))
    (Hrun : generate settings st env request user_id = Ok (response, st')) :
  let deals := DealCache.top_deals (cached_deals st) (Some (br_destination request)) 5 in
  let candidates :=
    imap (fun i choice => make_bundle request deals (uuid4_hex env i) choice)
      (choices flights hotels cars) in
  descending b_fit_score (bundles response)
  /\ exists dropped,
       Permutation (bundles response ++ dropped) candidates
       /\ forall kept cut, In kept (bundles response) -> In cut dropped ->
            (b_fit_score cut <= b_fit_score kept)%Q.
Proof.
  intros deals candidates.
  unfold generate in Hrun. rewrite Hmiss, Hinventory in Hrun. simpl in Hrun.
  injection Hrun as Hresp _. subst response.
  unfold build_response. cbn [bundles]. fold deals. fold candidates.
  split.
  - apply StronglySorted_firstn_desc, sort_desc_sorted.
  - exists (skipn (bundle_limit settings) (sort_desc b_fit_score candidates)).
    rewrite firstn_skipn. split; [apply sort_desc_perm|].
    apply descending_app. rewrite firstn_skipn. apply sort_desc_sorted.
Qed.




(** What a call leaves in the stores.  A hit changes nothing.  A miss never
    touches the deals or the watches, and appends one row per returned bundle
    to the bundle table exactly when a non-empty user id was given. *)
Theorem generate_store_effects (settings : Settings) (st st' : Store) (env : Env)
    (request : BundleRequest) (user_id : option string) (response : BundleResponse)
    (Hrun : generate settings st env request user_id = Ok (response, st')) :
  cached_deals st' = cached_deals st
  /\ watch_requests st' = watch_requests st
  /\ (redis st = None -> redis st' = None)
  /\ match _cached_response st (clock env) (_cache_key request) with
     | Ok (Some _) => st' = st
     | _ =>
         bundle_records st'
         = if anonymous user_id then bundle_records st
           else (bundle_records st
                 ++ map (DealCache.bundle_record response user_id (utcnow env))
                      (bundles response))%list
     end.
Proof.
  destruct (_cached_response st (clock env) (_cache_key request))
    as [[hit|]|] eqn:Hlookup.
  - unfold generate in Hrun. rewrite Hlookup in Hrun. simpl in Hrun.
    injection Hrun as _ <-. auto.
  - destruct (generate_miss settings st env request user_id Hlookup)
      as (flights & hotels & cars & _ & _ & _ & _ & _ & _ & Hgen).
    cbv zeta in Hgen. rewrite Hgen in Hrun. injection Hrun as Hresp Hst.
    rewrite Hresp in Hst. subst st'. clear Hgen Hresp.
    unfold store_after, _store_response, anonymous, DealCache.cache_bundles.
    destruct (redis st) as [r|] eqn:Hr; destruct user_id as [u|];
      try destruct (truthy u); cbn; rewrite ?Hr; cbn;
      repeat split; try reflexivity; try congruence.
  - unfold generate in Hrun. rewrite Hlookup in Hrun. discriminate.
Qed.






End EngineMore.

(** ** Upstream clients and the hot cache *)

Section FetchMore.
Context `{Runtime}.
Import http_clients BundleEngine.


(** A hotels service that fails once and would then answer is never asked
    again: the bundle is built from the fallback hotel. *)
Example flaky_hotels_service_not_retried :
  fetch_hotels (hotels_service Degraded.env_hotels_flaky) Scenario.request
  = Ok (_fallback_hotels Scenario.request)
  /\ hotels_service Degraded.env_hotels_flaky
       (build_search_payload Scenario.request (br_budget Scenario.request * (4 # 10))) 1%nat
     = Some [Scenario.hotel_1].
Proof. split; reflexivity. Qed.

(** A cache entry that is present and not empty decides the call: when it
    does not decode, [generate] raises and computes nothing; when it decodes,
    the decoded response is returned and the stores are left alone, whoever
    wrote the entry. *)
Theorem generate_trusts_cache_entry (settings : Settings) (st : Store) (env : Env)
    (request : BundleRequest) (user_id : option string) (raw : string)
    (Hentry : cached_at st (clock env) request = Some raw)
    (Hraw : truthy raw = true) :
  generate settings st env request user_id
  = match model_validate_json raw with
    | Ok response => Ok (response, st)
    | Raise => Raise
    end.
Proof.
  unfold cached_at in Hentry. unfold generate, _cached_response.
  destruct (redis st) as [r|]; [|discriminate].
  rewrite Hentry, Hraw. now destruct (model_validate_json raw).
Qed.

End FetchMore.

Lemma NoDup_app_snoc {A : Type} (l : list A) (x : A) :
  List.NoDup l -> ~ In x l -> List.NoDup (l ++ [x]).
Proof.
  intros Hnd Hx. induction l as [|a l IH]; simpl.
  - constructor; [intros [] | constructor].
  - apply NoDup_cons_iff in Hnd. destruct Hnd as [Ha Hnd]. constructor.
    + intros Hin. apply in_app_or in Hin. destruct Hin as [Hin|[<-|[]]].
      * contradiction.
      * apply Hx. now left.
    + apply IH; [exact Hnd|]. intros Hin. apply Hx. now right.
Qed.

Lemma existsb_false_In {A : Type} (f : A -> bool) (l : list A) (x : A) :
  existsb f l = false -> In x l -> f x = false.
Proof.
  intros Hex Hin. destruct (f x) eqn:Hf; [|reflexivity].
  assert (Htrue : existsb f l = true) by (apply existsb_exists; eauto).
  congruence.
Qed.

(** ** Deal cache: upserts and reads *)

Section CacheMore.
Import DealCache.

Lemma map_id_replace {A : Type} (f : A -> string) (same : A -> bool) (new : A -> A)
    (l : list A) :
  (forall x, f (new x) = f x) ->
  map f (map (fun x => if same x then new x else x) l) = map f l.
Proof.
  intros Hf. rewrite map_map. apply map_ext. intros x. now destruct (same x).
Qed.




Lemma filter_all {A : Type} (f : A -> bool) (l : list A) :
  (forall x, In x l -> f x = true) -> List.filter f l = l.
Proof.
  induction l as [|a l IH]; intros Hf; simpl; [reflexivity|].
  rewrite (Hf a) by (now left). f_equal. apply IH. intros x Hx. apply Hf. now right.
Qed.

Lemma filter_none {A : Type} (f : A -> bool) (l : list A) :
  (forall x, In x l -> f x = false) -> List.filter f l = [].
Proof.
  induction l as [|a l IH]; intros Hf; simpl; [reflexivity|].
  rewrite (Hf a) by (now left). apply IH. intros x Hx. apply Hf. now right.
Qed.

Lemma filter_length_le {A : Type} (f : A -> bool) (l : list A) :
  (length (List.filter f l) <= length l)%nat.
Proof. induction l as [|a l IH]; simpl; [lia|]. destruct (f a); simpl; lia. Qed.

Lemma filter_length_lt {A : Type} (f : A -> bool) (l : list A) (x : A) :
  In x l -> f x = false -> (length (List.filter f l) < length l)%nat.
Proof.
  induction l as [|a l IH]; intros Hin Hf; [contradiction|]. simpl.
  destruct Hin as [->|Hin].
  - rewrite Hf. pose proof (filter_length_le f l). lia.
  - specialize (IH Hin Hf). destruct (f a); simpl; lia.
Qed.

Lemma filter_length_pos {A : Type} (f : A -> bool) (l : list A) (x : A) :
  In x l -> f x = true -> (1 <= length (List.filter f l))%nat.
Proof.
  intros Hin Hf.
  assert (Hx : In x (List.filter f l)) by (apply filter_In; split; assumption).
  destruct (List.filter f l); [contradiction | simpl; lia].
Qed.

Lemma filter_length_perm {A : Type} (f : A -> bool) (l l' : list A) :
  Permutation l l' -> length (List.filter f l) = length (List.filter f l').
Proof.
  induction 1 as [|a l l' _ IH|a b l|l l' l'' _ IH1 _ IH2]; simpl.
  - reflexivity.
  - destruct (f a); simpl; congruence.
  - destruct (f a), (f b); reflexivity.
  - congruence.
Qed.

(** In a stable descending sort, an element with at most [n] elements at or
    above its key is among the first [n]; an element among the first [n] has
    fewer than [n] elements strictly above it. *)
Lemma sorted_top_contains {A : Type} (key : A -> Q) (n : nat) (l : list A) (x : A) :
  In x l -> (count_at_least key x l <= n)%nat -> In x (firstn n (sort_desc key l)).
Proof.
  intros Hin Hcount. unfold count_at_least in Hcount.
  rewrite (filter_length_perm _ _ _ (Permutation_sym (sort_desc_perm key l))) in Hcount.
  apply (sort_desc_In key) in Hin.
  pose proof (sort_desc_sorted key l) as Hsorted.
  set (S := sort_desc key l) in *.
  rewrite <- (firstn_skipn n S) in Hin, Hcount, Hsorted.
  apply in_app_or in Hin. destruct Hin as [Hin|Hin]; [exact Hin|]. exfalso.
  rewrite List.filter_app, length_app in Hcount.
  rewrite filter_all in Hcount.
  2:{ intros y Hy. apply Qle_bool_iff.
      exact (descending_app key _ _ Hsorted y x Hy Hin). }
  assert (Hpos : (1 <= length (List.filter (fun y => Qle_bool (key x) (key y))
                                 (skipn n S)))%nat).
  { apply (filter_length_pos _ _ x Hin). apply Qle_bool_iff, Qle_refl. }
  assert (Hlong : (n < length S)%nat).
  { destruct (skipn n S) eqn:Hs; [contradiction|].
    assert (length (skipn n S) = length S - n)%nat by apply length_skipn.
    rewrite Hs in *. simpl in *. lia. }
  rewrite length_firstn in Hcount. lia.
Qed.

Lemma sorted_top_above {A : Type} (key : A -> Q) (n : nat) (l : list A) (x : A) :
  In x (firstn n (sort_desc key l)) -> (count_above key x l < n)%nat.
Proof.
  intros Hin. unfold count_above.
  rewrite (filter_length_perm _ _ _ (Permutation_sym (sort_desc_perm key l))).
  pose proof (sort_desc_sorted key l) as Hsorted.
  set (S := sort_desc key l) in *.
  rewrite <- (firstn_skipn n S) in Hsorted |- *.
  rewrite List.filter_app, length_app.
  rewrite (filter_none _ (skipn n S)).
  2:{ intros y Hy. apply negb_false_iff, Qle_bool_iff.
      exact (descending_app key _ _ Hsorted x y Hin Hy). }
  assert (Hlt : (length (List.filter (fun y => negb (Qle_bool (key y) (key x)))
                           (firstn n S)) < length (firstn n S))%nat).
  { apply (filter_length_lt _ _ x Hin). apply negb_false_iff, Qle_bool_iff, Qle_refl. }
  pose proof (firstn_le_length n S). simpl. lia.
Qed.

Lemma top_deals_rows (table : list CachedDeal) (destination : option string) (limit : nat) :
  top_deals table destination limit
  = firstn limit (sort_desc cd_score (matching_rows table destination)).
Proof.
  unfold top_deals, matching_rows.
  destruct destination as [d|]; [destruct (truthy d)|]; reflexivity.
Qed.

(** Which rows a query returns.  A row of the destination is returned when at
    most [limit] rows of the destination score as high as it does, and a row
    that is returned has fewer than [limit] rows of the destination scoring
    strictly higher. *)
Theorem top_deals_selection (table : list CachedDeal) (destination : option string)
    (limit : nat) (deal : CachedDeal) :
  let rows := matching_rows table destination in
  (In deal rows -> (count_at_least cd_score deal rows <= limit)%nat ->
     In deal (top_deals table destination limit))
  /\ (In deal (top_deals table destination limit) ->
      In deal rows /\ (count_above cd_score deal rows < limit)%nat).
Proof.
  intros rows. rewrite top_deals_rows. fold rows. split.
  - apply sorted_top_contains.
  - intros Hin. split; [|now apply sorted_top_above].
    apply In_firstn, sort_desc_In in Hin. exact Hin.
Qed.



End CacheMore.

(** ** More on the watch evaluator *)

Section WatchesMore.
Import DealCache.

Lemma evaluate_watches_trace (st : Store) (conns : WebSocketManager.Connections)
    (now : Z) :
  let tick := evaluate_watches st conns now in
  tick_broadcasts tick
  = map (fun pair => (alert now pair, w_user_id (fst pair)))
      (flat_map (pairs_of st) (List.filter w_active (watch_requests st)))
  /\ tick_sent tick
     = flat_map (fun call =>
         WebSocketManager.broadcast conns (fst call) (Some (snd call)))
         (tick_broadcasts tick)
  /\ cached_deals (tick_store tick) = cached_deals st
  /\ bundle_records (tick_store tick) = bundle_records st
  /\ redis (tick_store tick) = redis st.
Proof.
  intros tick. unfold tick, evaluate_watches.
  destruct (List.filter w_active (watch_requests st)) as [|w ws] eqn:Hact.
  - simpl. repeat split; reflexivity.
  - rewrite triggered_pairs_spec.
    destruct (flat_map (pairs_of st) (w :: ws)) as [|pair rest] eqn:Htrig.
    + simpl. repeat split; reflexivity.
    + cbn [tick_store tick_broadcasts tick_sent cached_deals bundle_records redis].
      repeat split; reflexivity.
Qed.

Lemma evaluate_watches_quiet (st : Store) (conns : WebSocketManager.Connections)
    (now : Z) :
  flat_map (pairs_of st) (List.filter w_active (watch_requests st)) = [] ->
  evaluate_watches st conns now
  = {| tick_store := st; tick_broadcasts := []; tick_sent := [] |}.
Proof.
  intros Hnone. unfold evaluate_watches.
  destruct (List.filter w_active (watch_requests st)) as [|w ws] eqn:Hact; [reflexivity|].
  rewrite triggered_pairs_spec, Hnone. reflexivity.
Qed.

Lemma pairs_of_store (st st' : Store) (watch : WatchRequest) :
  cached_deals st' = cached_deals st -> pairs_of st' watch = pairs_of st watch.
Proof.
  intros Hdeals. unfold pairs_of, first_affordable, bucket. now rewrite Hdeals.
Qed.

Lemma pairs_of_sound (st : Store) (watch : WatchRequest) (pair : WatchRequest * CachedDeal) :
  In pair (pairs_of st watch) ->
  fst pair = watch
  /\ In (snd pair) (top_deals (cached_deals st) None 5)
  /\ cd_destination (snd pair) = w_destination watch
  /\ (cd_price_value (snd pair) <= w_budget_ceiling watch)%Q.
Proof.
  unfold pairs_of. destruct (first_affordable st watch) as [deal|] eqn:Hfind;
    simpl; [|contradiction].
  intros [<-|[]]. simpl. split; [reflexivity|].
  unfold first_affordable in Hfind. apply find_some in Hfind.
  destruct Hfind as [Hin Hprice]. unfold bucket in Hin. apply filter_In in Hin.
  destruct Hin as [Hin Hdest]. apply String.eqb_eq in Hdest.
  apply Qle_bool_iff in Hprice. auto.
Qed.

Lemma flat_map_length_le {A B : Type} (f : A -> list B) (l : list A) :
  (forall x, In x l -> (length (f x) <= 1)%nat) ->
  (length (flat_map f l) <= length l)%nat.
Proof.
  induction l as [|a l IH]; intros Hf; simpl; [lia|].
  rewrite length_app. pose proof (Hf a (or_introl eq_refl)).
  assert (length (flat_map f l) <= length l)%nat by (apply IH; intros x Hx; apply Hf; now right).
  lia.
Qed.

(** Every alert is justified, and no watch is alerted twice in one pass: each
    call to [broadcast] is for an active watch and a deal among the five top
    deals, of the watch's destination and priced at or below its ceiling, and
    is addressed to the watch's user; the number of calls is at most the
    number of active watches. *)
Theorem evaluate_watches_alerts_sound (st : Store)
    (conns : WebSocketManager.Connections) (now : Z) :
  let tick := evaluate_watches st conns now in
  (forall call, In call (tick_broadcasts tick) ->
     exists watch deal,
       In watch (watch_requests st)
       /\ w_active watch = true
       /\ In deal (top_deals (cached_deals st) None 5)
       /\ cd_destination deal = w_destination watch
       /\ (cd_price_value deal <= w_budget_ceiling watch)%Q
       /\ call = (alert now (watch, deal), w_user_id watch))
  /\ (length (tick_broadcasts tick)
      <= length (List.filter w_active (watch_requests st)))%nat.
Proof.
  intros tick. destruct (evaluate_watches_trace st conns now) as (Hcalls & _).
  fold tick in Hcalls. rewrite Hcalls. split.
  - intros call Hin. apply in_map_iff in Hin. destruct Hin as (pair & <- & Hin).
    apply in_flat_map in Hin. destruct Hin as (watch & Hw & Hin).
    apply filter_In in Hw. destruct Hw as [Hrow Hactive].
    apply pairs_of_sound in Hin. destruct Hin as (Hfst & Hdeal & Hdest & Hprice).
    exists watch, (snd pair). repeat split; try assumption.
    destruct pair as [w d]. simpl in *. now subst w.
  - rewrite length_map. apply flat_map_length_le. intros w _.
    unfold pairs_of. destruct (first_affordable st w); simpl; lia.
Qed.

(** What a pass leaves alone: the deals, the bundle records and the hot cache
    are unchanged, the table keeps its keys in order, a watch that was
    inactive is still there unchanged, and every row of the new table is a
    row of the old one or the fired version of an active one. *)
Theorem evaluate_watches_frame (st : Store) (conns : WebSocketManager.Connections)
    (now : Z)
    (Hkeys : List.NoDup (map w_id (watch_requests st))) :
  let st' := tick_store (evaluate_watches st conns now) in
  cached_deals st' = cached_deals st
  /\ bundle_records st' = bundle_records st
  /\ redis st' = redis st
  /\ map w_id (watch_requests st') = map w_id (watch_requests st)
  /\ (forall watch, In watch (watch_requests st) -> w_active watch = false ->
        In watch (watch_requests st'))
  /\ (forall row, In row (watch_requests st') ->
        In row (watch_requests st)
        \/ exists watch, In watch (watch_requests st) /\ w_active watch = true
                         /\ row = fire now watch).
Proof.
  intros st'.
  destruct (evaluate_watches_trace st conns now) as (_ & _ & Hd & Hb & Hr).
  destruct (evaluate_watches_closed st conns now Hkeys) as [Htable _].
  fold st' in Hd, Hb, Hr, Htable.
  repeat split; try assumption.
  - rewrite Htable. apply fire_ids_keys.
  - intros watch Hin Hinactive. rewrite Htable. unfold fire_ids.
    apply in_map_iff. exists watch. split; [|exact Hin].
    destruct (existsb _ _) eqn:Hex; [|reflexivity]. exfalso.
    apply existsb_exists in Hex. destruct Hex as (id & Hid & Heq).
    apply String.eqb_eq in Heq. apply in_map_iff in Hid.
    destruct Hid as (pair & Hpid & Hpair). apply in_flat_map in Hpair.
    destruct Hpair as (w & Hw & Hpair). apply pairs_of_fst in Hpair.
    apply filter_In in Hw. destruct Hw as [Hw Hactive].
    assert (w = watch).
    { apply (unique_key w_id (watch_requests st)); try assumption. congruence. }
    congruence.
  - intros row Hin. rewrite Htable in Hin. unfold fire_ids in Hin.
    apply in_map_iff in Hin. destruct Hin as (x & Hx & Hin).
    destruct (existsb _ _) eqn:Hex; [|left; now subst row].
    right. exists x. repeat split; [exact Hin| |now subst row].
    apply existsb_exists in Hex. destruct Hex as (id & Hid & Heq).
    apply String.eqb_eq in Heq. apply in_map_iff in Hid.
    destruct Hid as (pair & Hpid & Hpair). apply in_flat_map in Hpair.
    destruct Hpair as (w & Hw & Hpair). apply pairs_of_fst in Hpair.
    apply filter_In in Hw. destruct Hw as [Hw Hactive].
    assert (w = x).
    { apply (unique_key w_id (watch_requests st)); try assumption. congruence. }
    congruence.
Qed.

(** Alerts are single-shot.  After one pass, a second pass over the same
    deals, at any later time and with any connections, sends nothing and
    leaves the store as the first pass left it: a watch that fired stays
    silent even when its deal is still on offer. *)
Theorem evaluate_watches_single_shot (st : Store)
    (conns conns' : WebSocketManager.Connections) (now now' : Z)
    (Hkeys : List.NoDup (map w_id (watch_requests st))) :
  let st' := tick_store (evaluate_watches st conns now) in
  evaluate_watches st' conns' now'
  = {| tick_store := st'; tick_broadcasts := []; tick_sent := [] |}.
Proof.
  intros st'. apply evaluate_watches_quiet.
  destruct (evaluate_watches_trace st conns now) as (_ & _ & Hd & _).
  destruct (evaluate_watches_closed st conns now Hkeys) as [Htable _].
  fold st' in Hd, Htable.
  assert (Hnone : forall row, In row (List.filter w_active (watch_requests st')) ->
            pairs_of st' row = []).
  { intros row Hin. apply filter_In in Hin.
    destruct Hin as [Hin Hactive]. rewrite Htable in Hin. unfold fire_ids in Hin.
    apply in_map_iff in Hin. destruct Hin as (x & Hx & Hin).
    destruct (existsb _ _) eqn:Hex; [subst row; discriminate|]. subst x.
    rewrite (pairs_of_store st st' row Hd).
    destruct (pairs_of st row) as [|pair more] eqn:Hpairs; [reflexivity|]. exfalso.
    assert (Hfst : fst pair = row).
    { apply (pairs_of_fst st). rewrite Hpairs. now left. }
    assert (Hex' : existsb (String.eqb (w_id row))
              (map (fun pair => w_id (fst pair))
                 (flat_map (pairs_of st) (List.filter w_active (watch_requests st))))
              = true).
    { apply existsb_exists. exists (w_id row). split; [|apply String.eqb_refl].
      apply in_map_iff. exists pair. split; [now rewrite Hfst|].
      apply in_flat_map. exists row. split.
      - apply filter_In. split; assumption.
      - rewrite Hpairs. now left. }
    congruence. }
  revert Hnone. generalize (List.filter w_active (watch_requests st')).
  intros l. induction l as [|a l IHl]; intros Hnone; [reflexivity|].
  simpl. rewrite (Hnone a) by (now left). simpl. apply IHl.
  intros x Hx. apply Hnone. now right.
Qed.

End WatchesMore.

(** ** The connection registry ([services/websocket_manager.py]) *)

Section Registry.
Import WebSocketManager.

Lemma remove_first_snoc (x : nat) (l : list nat) :
  ~ In x l -> remove_first x (l ++ [x]) = l.
Proof.
  induction l as [|y l IH]; intros Hnot; simpl.
  - now rewrite Nat.eqb_refl.
  - destruct (Nat.eqb_spec x y) as [->|Hne].
    + exfalso. apply Hnot. now left.
    + f_equal. apply IH. intros Hin. apply Hnot. now right.
Qed.

Lemma remove_first_absent (x : nat) (l : list nat) :
  ~ In x l -> remove_first x l = l.
Proof.
  induction l as [|y l IH]; intros Hnot; simpl; [reflexivity|].
  destruct (Nat.eqb_spec x y) as [->|Hne].
  - exfalso. apply Hnot. now left.
  - f_equal. apply IH. intros Hin. apply Hnot. now right.
Qed.

Lemma remove_first_In (x y : nat) (l : list nat) :
  In y (remove_first x l) -> In y l.
Proof.
  induction l as [|z l IH]; simpl; [tauto|].
  destruct (Nat.eqb x z); simpl; [tauto|]. intros [->|Hin]; [now left | right; auto].
Qed.

Lemma remove_first_NoDup (x : nat) (l : list nat) :
  List.NoDup l -> ~ In x (remove_first x l).
Proof.
  induction l as [|y l IH]; intros Hnd; simpl; [tauto|].
  apply NoDup_cons_iff in Hnd. destruct Hnd as [Hny Hnd].
  destruct (Nat.eqb_spec x y) as [->|Hne]; [exact Hny|].
  intros [Heq|Hin]; [congruence | now apply IH].
Qed.

(** The registry starts without an empty bucket and neither [connect] nor
    [disconnect] creates one: a key is present exactly while some channel is
    registered under it. *)
Theorem registry_no_empty_bucket (conns : Connections) (websocket : nat)
    (user_id : option string)
    (Hinv : no_empty_bucket conns) :
  no_empty_bucket (connect conns websocket user_id)
  /\ no_empty_bucket (disconnect conns websocket user_id).
Proof.
  split.
  - unfold no_empty_bucket, connect, Connections in *. cbv zeta.
    intros key sockets Hlook.
    destruct (decide (str_or user_id "anon" = key)) as [<-|Hne].
    + rewrite lookup_insert_eq in Hlook. injection Hlook as <-.
      intros Hnil. apply app_eq_nil in Hnil. destruct Hnil as [_ Hnil]. discriminate.
    + rewrite lookup_insert_ne in Hlook by exact Hne. exact (Hinv _ _ Hlook).
  - unfold no_empty_bucket, disconnect, Connections in *. cbv zeta.
    destruct (conns !! str_or user_id "anon") as [l|] eqn:Hl; [|exact Hinv].
    destruct (remove_first websocket l) as [|s rest] eqn:Hrest.
    + intros key sockets Hlook.
      destruct (decide (str_or user_id "anon" = key)) as [<-|Hne].
      * rewrite lookup_delete_eq in Hlook. discriminate.
      * rewrite lookup_delete_ne in Hlook by exact Hne. exact (Hinv _ _ Hlook).
    + intros key sockets Hlook.
      destruct (decide (str_or user_id "anon" = key)) as [<-|Hne].
      * rewrite lookup_insert_eq in Hlook. injection Hlook as <-. discriminate.
      * rewrite lookup_insert_ne in Hlook by exact Hne. exact (Hinv _ _ Hlook).
Qed.

(** Connecting a channel that is not yet registered for the user and then
    disconnecting it gives the registry back, key set included. *)
Theorem connect_disconnect_round_trip (conns : Connections) (websocket : nat)
    (user_id : option string)
    (Hinv : no_empty_bucket conns)
    (Hnew : ~ In websocket (sockets_of conns user_id)) :
  disconnect (connect conns websocket user_id) websocket user_id = conns.
Proof.
  unfold disconnect, connect, sockets_of, no_empty_bucket, Connections in *.
  set (key := str_or user_id "anon") in *.
  rewrite lookup_insert_eq, (remove_first_snoc _ _ Hnew).
  destruct (conns !! key) as [l|] eqn:Hl; simpl.
  - destruct l as [|s rest]; [now destruct (Hinv _ _ Hl)|].
    rewrite insert_insert_eq. now apply insert_id.
  - now apply delete_insert_id.
Qed.

(** Disconnecting a channel that is not registered for the user changes
    nothing. *)
Lemma disconnect_unknown (conns : Connections) (websocket : nat)
    (user_id : option string)
    (Hinv : no_empty_bucket conns)
    (Hnew : ~ In websocket (sockets_of conns user_id)) :
  disconnect conns websocket user_id = conns.
Proof.
  unfold disconnect, sockets_of, no_empty_bucket, Connections in *.
  destruct (conns !! str_or user_id "anon") as [l|] eqn:Hl; [|reflexivity].
  simpl in Hnew. rewrite (remove_first_absent _ _ Hnew).
  destruct l as [|s rest]; [now destruct (Hinv _ _ Hl)|].
  now apply insert_id.
Qed.

(** A frame addressed to a user goes to the channels registered under that
    user's key and to no other.  After [connect] the new channel receives it
    last when the keys agree, and nothing changes for other keys; after
    [disconnect] the first registration of the channel is gone, so a channel
    registered once receives nothing more. *)
Theorem broadcast_after_connect_disconnect (conns : Connections) (websocket : nat)
    (user_id : option string) (payload : Frame) (target : string) :
  let same := String.eqb (str_or user_id "anon") (str_or (Some target) "anon") in
  broadcast (connect conns websocket user_id) payload (Some target)
  = (if same
     then broadcast conns payload (Some target) ++ [(websocket, payload)]
     else broadcast conns payload (Some target))%list
  /\ broadcast (disconnect conns websocket user_id) payload (Some target)
     = (if same
        then map (fun socket => (socket, payload))
               (remove_first websocket (sockets_of conns user_id))
        else broadcast conns payload (Some target))
  /\ (List.NoDup (sockets_of conns user_id) -> same = true ->
      ~ In (websocket, payload)
          (broadcast (disconnect conns websocket user_id) payload (Some target))).
Proof.
  intros same.
  assert (Hafter : broadcast (disconnect conns websocket user_id) payload (Some target)
     = (if same
        then map (fun socket => (socket, payload))
               (remove_first websocket (sockets_of conns user_id))
        else broadcast conns payload (Some target))).
  { unfold broadcast, disconnect, sockets_of, Connections in *. subst same.
    destruct (String.eqb_spec (str_or user_id "anon") (str_or (Some target) "anon"))
      as [Heq|Hne].
    - rewrite <- Heq. destruct (conns !! str_or user_id "anon") as [l|] eqn:Hl.
      + change (default [] (Some l)) with l.
        destruct (remove_first websocket l) as [|s rest] eqn:Hrest.
        * now rewrite lookup_delete_eq.
        * now rewrite lookup_insert_eq.
      + rewrite Hl. reflexivity.
    - destruct (conns !! str_or user_id "anon") as [l|] eqn:Hl; [|reflexivity].
      destruct (remove_first websocket l) as [|s rest] eqn:Hrest.
      + now rewrite lookup_delete_ne.
      + now rewrite lookup_insert_ne. }
  split; [|split; [exact Hafter|]].
  - unfold broadcast, connect, Connections in *. subst same.
    destruct (String.eqb_spec (str_or user_id "anon") (str_or (Some target) "anon"))
      as [Heq|Hne].
    + rewrite <- Heq, lookup_insert_eq. simpl. now rewrite map_app.
    + now rewrite lookup_insert_ne.
  - intros Hnd Hsame. rewrite Hafter, Hsame. intros Hin. apply in_map_iff in Hin.
    destruct Hin as (s & Hs & Hin). injection Hs as ->.
    exact (remove_first_NoDup _ _ Hnd Hin).
Qed.

(** A frame without a target goes to every registered channel, of every
    user, and to nothing else. *)
Theorem broadcast_all_reaches_registered (conns : Connections) (payload frame : Frame)
    (socket : nat) :
  In (socket, frame) (broadcast conns payload None)
  <-> frame = payload
      /\ exists key sockets, conns !! key = Some sockets /\ In socket sockets.
Proof.
  unfold broadcast, Connections in *. rewrite in_map_iff. split.
  - intros (s & Hs & Hin). injection Hs as -> ->. split; [reflexivity|].
    apply in_concat in Hin. destruct Hin as (sockets & Hsockets & Hin).
    apply in_map_iff in Hsockets. destruct Hsockets as ([key l] & Hl & Hentry).
    simpl in Hl. subst l. exists key, sockets. split; [|exact Hin].
    apply elem_of_map_to_list. now apply list_elem_of_In.
  - intros (-> & key & sockets & Hlook & Hin). exists socket. split; [reflexivity|].
    apply in_concat. exists sockets. split; [|exact Hin].
    apply in_map_iff. exists (key, sockets). split; [reflexivity|].
    apply list_elem_of_In. now apply elem_of_map_to_list.
Qed.

End Registry.

Section Delivery.
Import DealCache.


End Delivery.

(** ** More on the deals worker *)

Section WorkerMore.
Import DealsWorker Pipeline.

Lemma for_each_map {A B : Type} (f : nat -> A -> result B) (g : B -> A) (l : list A) :
  (forall j x y, f j x = Ok y -> g y = x) ->
  forall (k : nat) (out : list B), for_each f k l = Ok out -> map g out = l.
Proof.
  intros Hg. induction l as [|x r IH]; intros k out Hrun; simpl in Hrun.
  - now inversion Hrun.
  - destruct (f k x) as [y0|] eqn:Hx; simpl in Hrun; [|discriminate].
    destruct (for_each f (S k) r) as [ys|] eqn:Hr; simpl in Hrun; [|discriminate].
    inversion Hrun; subst. simpl. f_equal; eauto.
Qed.

Lemma for_each_raise {A B : Type} (f : nat -> A -> result B) (l : list A) (x : A) :
  In x l -> (forall j, f j x = Raise) -> forall k, for_each f k l = Raise.
Proof.
  intros Hin Hx. induction l as [|a r IH]; intros k; [contradiction|]. simpl.
  destruct Hin as [->|Hin].
  - now rewrite Hx.
  - destruct (f k a); simpl; [|reflexivity]. now rewrite IH.
Qed.

Lemma for_each_total {A B : Type} (f : nat -> A -> result B) (l : list A) :
  (forall x, In x l -> forall j, f j x <> Raise) ->
  forall k, exists out, for_each f k l = Ok out.
Proof.
  induction l as [|a r IH]; intros Hok k; simpl; [now eexists|].
  destruct (f k a) as [y|] eqn:Hy; [|now destruct (Hok a (or_introl eq_refl) k)].
  destruct (IH (fun x Hx => Hok x (or_intror Hx)) (S k)) as [ys Hys].
  rewrite Hys. simpl. now eexists.
Qed.

Lemma normalize_deal_raw (now : Z) (deal : RawDeal) (out : Normalized) :
  normalize_deal now deal = Ok out -> raw out = deal.
Proof.
  unfold normalize_deal. destruct (Qeq_bool _ _); [discriminate|].
  intros Hrun. now inversion Hrun.
Qed.


(** The normalizing stage fails as a whole exactly when some deal of the
    batch has a zero original price. *)
Lemma normalize_deals_raises_iff (now : Z) (raw_deals : list RawDeal) :
  normalize_deals now raw_deals = Raise
  <-> exists deal, In deal raw_deals /\ (original_price deal == 0)%Q.
Proof.
  unfold normalize_deals. split.
  - intros Hraise.
    destruct (existsb (fun deal => Qeq_bool (original_price deal) 0) raw_deals) eqn:Hex.
    + apply existsb_exists in Hex. destruct Hex as (deal & Hin & Hzero).
      exists deal. split; [exact Hin | now apply Qeq_bool_iff].
    + exfalso.
      destruct (for_each_total (fun _ : nat => normalize_deal now) raw_deals) with (k := 0%nat)
        as [out Hout]; [|congruence].
      intros x Hx _. unfold normalize_deal.
      rewrite (existsb_false_In _ _ x Hex Hx). discriminate.
  - intros (deal & Hin & Hzero). apply (for_each_raise _ _ deal Hin).
    intros _. unfold normalize_deal. apply Qeq_bool_iff in Hzero. now rewrite Hzero.
Qed.

Lemma calculate_deal_score_scored (now : Z) (draws : nat -> Q) (j : nat)
    (deal : Normalized) (out : Scored) :
  (let! score := calculate_deal_score now deal (draws j) in
   Ok {| normalized := deal; ai_score := score |}) = Ok out ->
  normalized out = deal.
Proof.
  destruct (calculate_deal_score now deal (draws j)); simpl; [|discriminate].
  intros Hrun. now inversion Hrun.
Qed.

(** Scoring ranks without losing anything: the result is ordered by
    decreasing score and holds each normalized deal exactly once. *)
Lemma score_deals_ranks (now : Z) (draws : nat -> Q)
    (normalized_deals : list Normalized) (scored_deals : list Scored)
    (Hrun : score_deals now draws normalized_deals = Ok scored_deals) :
  descending ai_score scored_deals
  /\ Permutation (map normalized scored_deals) normalized_deals
  /\ length scored_deals = length normalized_deals.
Proof.
  unfold score_deals in Hrun.
  match type of Hrun with
  | bind ?c _ = _ => destruct c as [out|] eqn:Hout; simpl in Hrun; [|discriminate]
  end.
  injection Hrun as <-.
  assert (Hmap : map normalized out = normalized_deals).
  { apply (for_each_map _ normalized _ (calculate_deal_score_scored now draws) _ _ Hout). }
  assert (Hperm : Permutation (map normalized (sort_desc ai_score out)) normalized_deals).
  { rewrite <- Hmap. apply Permutation_map, sort_desc_perm. }
  split; [apply sort_desc_sorted|]. split; [exact Hperm|].
  rewrite <- (length_map normalized). now apply Permutation_length.
Qed.

Lemma mem_In (s : string) (l : list string) : mem s l = true <-> In s l.
Proof.
  unfold mem. rewrite existsb_exists. split.
  - intros (x & Hx & Heq). apply String.eqb_eq in Heq. now subst.
  - intros Hin. exists s. split; [exact Hin | apply String.eqb_refl].
Qed.

Lemma nodupb_NoDup (l : list string) : nodupb l = true -> List.NoDup l.
Proof.
  induction l as [|x r IH]; simpl; intros Hl; [constructor|].
  apply andb_true_iff in Hl. destruct Hl as [Hx Hr].
  constructor; [|now apply IH].
  intros Hin. apply mem_In in Hin. rewrite Hin in Hx. discriminate.
Qed.

Lemma mem_pair_exclusive (a b : string) (l : list string) :
  negb (mem a l && mem b l) = true -> ~ (In a l /\ In b l).
Proof.
  intros Hneg [Ha Hb]. apply mem_In in Ha, Hb. rewrite Ha, Hb in Hneg. discriminate.
Qed.

(** What the tags exclude.  A deal never carries a tag twice nor more than
    five tags, the tags of one family exclude each other, a flight that
    expires soon is also last minute, and only a flight has conditions,
    ["non-refundable"] first. *)
Theorem tag_deal_exclusive (now : Z) (deal : Scored) (out : Tagged)
    (Hrun : tag_deal now deal = Ok out) :
  List.NoDup (tags out)
  /\ (length (tags out) <= 5)%nat
  /\ ~ (In "flash_deal" (tags out) /\ In "minor_discount" (tags out))
  /\ ~ (In "expires_soon" (tags out) /\ In "limited_time" (tags out))
  /\ ~ (In "last_minute" (tags out) /\ In "advance_booking" (tags out))
  /\ ~ (In "top_pick" (tags out) /\ In "good_value" (tags out))
  /\ (type (raw (normalized deal)) = Flight -> In "expires_soon" (tags out) ->
      In "last_minute" (tags out))
  /\ (type (raw (normalized deal)) <> Flight -> conditions out = [])
  /\ (type (raw (normalized deal)) = Flight ->
      exists rest, conditions out = "non-refundable" :: rest).
Proof.
  unfold tag_deal in Hrun. cbv zeta in Hrun.
  match type of Hrun with
  | bind ?c _ = _ => destruct c as [conds|] eqn:Hc; simpl in Hrun; [|discriminate]
  end.
  inversion Hrun; subst out; clear Hrun. cbn [tags conditions].
  assert (Hconds : (type (raw (normalized deal)) <> Flight -> conds = [])
                   /\ (type (raw (normalized deal)) = Flight ->
                       exists rest, conds = "non-refundable" :: rest)).
  { destruct (type (raw (normalized deal))).
    - destruct (raw_data (raw (normalized deal))) as [row|]; [|discriminate].
      destruct (changeable row) as [[|]|]; try discriminate;
        injection Hc as <-; (split; [congruence | intros _; eexists; reflexivity]).
    - injection Hc as <-. split; [reflexivity | discriminate].
    - injection Hc as <-. split; [reflexivity | discriminate]. }
  clear Hc. destruct Hconds as [Hc1 Hc2].
  match goal with |- List.NoDup ?l /\ _ => set (t := l) end.
  assert (Hexcl : tags_exclusive t = true).
  { subst t.
    destruct (Qlt_le_dec 50 _); destruct (Qlt_le_dec _ 15); try (exfalso; lra);
      destruct (type (raw (normalized deal)));
      repeat destruct (Qlt_le_dec _ _); reflexivity. }
  assert (Hsoon : type (raw (normalized deal)) = Flight ->
            implb (mem "expires_soon" t) (mem "last_minute" t) = true).
  { intros Htype. subst t. rewrite Htype.
    destruct (Qlt_le_dec 50 _); destruct (Qlt_le_dec _ 15);
      repeat destruct (Qlt_le_dec _ _); try reflexivity; exfalso; lra. }
  clearbody t. unfold tags_exclusive in Hexcl.
  repeat (apply andb_true_iff in Hexcl; destruct Hexcl as [Hexcl ?]).
  repeat match goal with |- _ /\ _ => split end; try assumption.
  - now apply nodupb_NoDup.
  - now apply Nat.leb_le.
  - now apply mem_pair_exclusive.
  - now apply mem_pair_exclusive.
  - now apply mem_pair_exclusive.
  - now apply mem_pair_exclusive.
  - intros Htype Hin. apply mem_In in Hin. specialize (Hsoon Htype).
    rewrite Hin in Hsoon. now apply mem_In.
Qed.

(** The stages in sequence hand on the batch they were given: when none
    raises, the tagged deals are the raw candidates, each exactly once, in
    the order of decreasing score. *)
Theorem process_deals_pipeline_keeps_batch (now_normalize now_score now_tag : Z)
    (draws : nat -> Q) (raw_deals : list RawDeal) (tagged : list Tagged)
    (Hrun : process_deals_pipeline now_normalize now_score now_tag draws raw_deals
            = Ok tagged) :
  Permutation (map source tagged) raw_deals
  /\ length tagged = length raw_deals
  /\ descending (fun deal => ai_score (scored deal)) tagged.
Proof.
  unfold process_deals_pipeline in Hrun.
  destruct (normalize_deals now_normalize raw_deals) as [normalized_deals|] eqn:Hn;
    simpl in Hrun; [|discriminate].
  destruct (score_deals now_score draws normalized_deals) as [scored_deals|] eqn:Hs;
    simpl in Hrun; [|discriminate].
  assert (Hraw : map raw normalized_deals = raw_deals).
  { apply (for_each_map _ raw _ (fun _ => normalize_deal_raw now_normalize) _ _ Hn). }
  assert (Hscored : map scored tagged = scored_deals).
  { apply (for_each_map _ scored _
             (fun _ x y Hxy => proj1 (tag_deal_laws now_tag x y Hxy)) _ _ Hrun). }
  unfold score_deals in Hs.
  match type of Hs with
  | bind ?c _ = _ => destruct c as [out|] eqn:Hout; simpl in Hs; [|discriminate]
  end.
  injection Hs as Hs.
  assert (Hnorm : map normalized out = normalized_deals).
  { apply (for_each_map _ normalized _ (calculate_deal_score_scored now_score draws)
             _ _ Hout). }
  assert (Hperm : Permutation (map source tagged) raw_deals).
  { unfold source. rewrite <- Hraw, <- Hnorm.
    rewrite <- (map_map scored (fun s => raw (normalized s))), Hscored, <- Hs.
    rewrite <- (map_map normalized raw).
    apply Permutation_map, Permutation_map, sort_desc_perm. }
  split; [exact Hperm|]. split.
  - rewrite <- (length_map source). now apply Permutation_length.
  - pose proof (sort_desc_sorted ai_score out) as Hsorted. rewrite Hs, <- Hscored in Hsorted.
    clear -Hsorted. unfold descending in *.
    induction tagged as [|a l IH]; [constructor|].
    simpl in Hsorted. inversion Hsorted as [|x y Hl Ha]; subst.
    constructor; [now apply IH|].
    rewrite List.Forall_forall in *. intros b Hb. apply (Ha (scored b)). now apply in_map.
Qed.

(** One bad deal loses the batch.  When a candidate has a zero original
    price, or is a flight whose source row is missing or lacks the seat count
    or the changeable flag, the stages raise and nothing is handed to
    persistence or emission, whatever the other deals are. *)
Theorem process_deals_pipeline_aborts (now_normalize now_score now_tag : Z)
    (draws : nat -> Q) (raw_deals : list RawDeal) (deal : RawDeal)
    (Hin : In deal raw_deals)
    (Hbad : unprocessable deal) :
  process_deals_pipeline now_normalize now_score now_tag draws raw_deals = Raise.
Proof.
  unfold process_deals_pipeline.
  destruct (normalize_deals now_normalize raw_deals) as [normalized_deals|] eqn:Hn;
    simpl; [|reflexivity].
  destruct Hbad as [Hzero|[Htype Hrow]].
  { assert (Hraise : normalize_deals now_normalize raw_deals = Raise)
      by (apply normalize_deals_raises_iff; eauto).
    congruence. }
  assert (Hraw : map raw normalized_deals = raw_deals).
  { apply (for_each_map _ raw _ (fun _ => normalize_deal_raw now_normalize) _ _ Hn). }
  rewrite <- Hraw in Hin. apply in_map_iff in Hin. destruct Hin as (n & Hn' & Hin).
  subst deal.
  destruct (score_deals now_score draws normalized_deals) as [scored_deals|] eqn:Hs;
    simpl; [|reflexivity].
  destruct (score_deals_ranks _ _ _ _ Hs) as (_ & Hperm & _).
  assert (Hn2 : In n (map normalized scored_deals)).
  { eapply Permutation_in; [apply Permutation_sym; exact Hperm | exact Hin]. }
  apply in_map_iff in Hn2. destruct Hn2 as (s & Hs' & Hsin).
  unfold tag_deals. apply (for_each_raise _ _ s Hsin). intros _.
  assert (Hscore : exists v, calculate_deal_score now_score n v <> Raise).
  { unfold score_deals in Hs.
    match type of Hs with
    | bind ?c _ = _ => destruct c as [out|] eqn:Hout; simpl in Hs; [|discriminate]
    end.
    injection Hs as Hs. rewrite <- Hs in Hsin. apply sort_desc_In in Hsin.
    destruct (for_each_In _ _ _ _ Hout s Hsin) as (j & x & Hx & Hf).
    exists (draws j).
    destruct (calculate_deal_score now_score x (draws j)) eqn:Hcalc; simpl in Hf;
      [|discriminate].
    inversion Hf; subst s. simpl in Hs'. subst x. rewrite Hcalc. discriminate. }
  destruct Hscore as [v Hv].
  unfold tag_deal. cbv zeta. rewrite Hs', Htype.
  destruct (raw_data (raw n)) as [row|] eqn:Hrd.
  - destruct Hrow as [Hseats|Hch].
    + exfalso. apply Hv. unfold calculate_deal_score. rewrite Htype, Hrd, Hseats.
      repeat destruct (Qlt_le_dec _ _); reflexivity.
    + rewrite Hch. reflexivity.
  - reflexivity.
Qed.

End WorkerMore.

(** ** The deal event consumer ([services/kafka.py]) *)

Section Consumer.
Import DealCache DealEventConsumer.

(** [start] gives up after five attempts and never sleeps after the last
    one.  The delays are 5, 10, 20 and 40 seconds, one after each failed
    attempt but the fifth; the consumer starts on the first attempt that
    connects, and when none does the service goes on without a consumer
    after 75 seconds of waiting. *)
Theorem start_backs_off (enabled : bool) (connects : nat -> bool) :
  let '(consumer, slept) := start enabled connects in
  slept = firstn (length slept) [5; 10; 20; 40]%Z
  /\ match consumer with
     | Some k =>
         enabled = true /\ (k < 5)%nat /\ connects k = true
         /\ (forall j, (j < k)%nat -> connects j = false)
         /\ length slept = k
     | None =>
         (enabled = false /\ slept = [])
         \/ (enabled = true /\ (forall j, (j < 5)%nat -> connects j = false)
             /\ slept = [5; 10; 20; 40]%Z /\ fold_right Z.add 0%Z slept = 75%Z)
     end.
Proof.
  unfold start. destruct enabled; [|cbn; auto].
  unfold max_retries. cbn.
  repeat match goal with
         | |- context [connects ?k] => destruct (connects k) eqn:?; cbn
         end;
    (split; [reflexivity|]);
    try (right; split; [reflexivity|]; split; [|split; reflexivity]);
    try (split; [reflexivity|]; split; [lia|]; split; [assumption|];
         split; [|reflexivity]);
    intros j Hj; destruct j as [|[|[|[|[|j]]]]]; try lia; assumption.
Qed.

Lemma upsert_deal_event_keys (table table' : list CachedDeal) (now : Z)
    (event : DealEvent) :
  upsert_deal_event table now event = Ok table' ->
  map cd_deal_id table' = map cd_deal_id table
  \/ (map cd_deal_id table' = (map cd_deal_id table ++ [ev_deal_id event])%list
      /\ ~ In (ev_deal_id event) (map cd_deal_id table)).
Proof.
  unfold upsert_deal_event.
  destruct (ev_price event !! "deal") as [price|]; [|discriminate]. cbv zeta.
  destruct (existsb _ table) eqn:Hex; intros Hrun; injection Hrun as <-.
  - left. apply map_id_replace. reflexivity.
  - right. rewrite map_app. split; [reflexivity|].
    intros Hin. apply in_map_iff in Hin. destruct Hin as (x & Hx & Hin).
    pose proof (existsb_false_In _ _ x Hex Hin) as Hfalse. cbv beta in Hfalse.
    rewrite Hx, String.eqb_refl in Hfalse. discriminate.
Qed.

Section WithDecoder.
Variable decode : string -> option DealEvent.

Lemma handle_rejected (table : list CachedDeal) (message : Z * string) :
  accepted decode message = false -> handle decode table message = table.
Proof.
  unfold accepted, handle. destruct (decode (snd message)) as [event|]; [|reflexivity].
  unfold upsert_deal_event. destruct (ev_price event !! "deal"); [discriminate|reflexivity].
Qed.

Lemma handle_keys (table : list CachedDeal) (message : Z * string) :
  List.NoDup (map cd_deal_id table) ->
  exists added,
    map cd_deal_id (handle decode table message) = (map cd_deal_id table ++ added)%list
    /\ List.NoDup (map cd_deal_id table ++ added)%list
    /\ (length added <= if accepted decode message then 1 else 0)%nat.
Proof.
  intros Hnd. unfold handle, accepted.
  destruct (decode (snd message)) as [event|];
    [|exists []; rewrite app_nil_r; simpl; auto].
  destruct (upsert_deal_event table (fst message) event) as [table'|] eqn:Hrun.
  - assert (Hprice : exists p, ev_price event !! "deal" = Some p).
    { unfold upsert_deal_event in Hrun.
      destruct (ev_price event !! "deal"); [eauto | discriminate]. }
    destruct Hprice as [p Hp]. rewrite Hp.
    destruct (upsert_deal_event_keys _ _ _ _ Hrun) as [Hsame|[Hnew Hfresh]].
    + exists []. rewrite app_nil_r. simpl. auto.
    + exists [ev_deal_id event]. split; [exact Hnew|]. split; [|simpl; lia].
      now apply NoDup_app_snoc.
  - exists []. rewrite app_nil_r. split; [reflexivity|]. split; [exact Hnd|].
    simpl. lia.
Qed.

(** A message that does not decode, or whose event has no deal price, is
    dropped and the loop goes on: the cache ends as if that message had
    never arrived. *)
Lemma consume_skips_rejected (table : list CachedDeal) (messages : list (Z * string)) :
  _consume decode table messages
  = _consume decode table (List.filter (accepted decode) messages).
Proof.
  unfold _consume. revert table.
  induction messages as [|m rest IH]; intros table; simpl; [reflexivity|].
  destruct (accepted decode m) eqn:Hacc; simpl.
  - apply IH.
  - rewrite (handle_rejected _ _ Hacc). apply IH.
Qed.

Lemma consume_keys (table : list CachedDeal) (messages : list (Z * string))
    (Hkeys : List.NoDup (map cd_deal_id table)) :
  exists added,
    map cd_deal_id (_consume decode table messages)
    = (map cd_deal_id table ++ added)%list
    /\ List.NoDup (map cd_deal_id (_consume decode table messages))
    /\ (length added <= length (List.filter (accepted decode) messages))%nat.
Proof.
  unfold _consume. revert table Hkeys.
  induction messages as [|m rest IH]; intros table Hkeys; simpl.
  - exists []. rewrite app_nil_r. simpl. auto.
  - destruct (handle_keys table m Hkeys) as (a1 & Hk1 & Hnd1 & Hlen1).
    rewrite <- Hk1 in Hnd1.
    destruct (IH _ Hnd1) as (a2 & Hk2 & Hnd2 & Hlen2).
    exists (a1 ++ a2)%list. split; [|split; [exact Hnd2|]].
    + rewrite Hk2, Hk1. now rewrite app_assoc.
    + rewrite length_app. destruct (accepted decode m); simpl; lia.
Qed.




(** The consumer only adds, and a bad message costs nothing.  The rows it
    leaves carry the keys the table had, in the same order, followed by at
    most one new key per accepted message; keys stay unique and no deal is
    ever removed, expired or not.  A message that does not decode, or whose
    event has no deal price, is dropped and the loop goes on: the table ends
    as if that message had never arrived. *)
Theorem consume_only_adds (table : list CachedDeal) (messages : list (Z * string))
    (Hkeys : List.NoDup (map cd_deal_id table)) :
  (exists added,
     map cd_deal_id (_consume decode table messages)
     = (map cd_deal_id table ++ added)%list
     /\ List.NoDup (map cd_deal_id (_consume decode table messages))
     /\ (length added <= length (List.filter (accepted decode) messages))%nat)
  /\ _consume decode table messages
     = _consume decode table (List.filter (accepted decode) messages).
Proof.
  split; [now apply consume_keys | apply consume_skips_rejected].
Qed.

End WithDecoder.

End Consumer.

(** ** The chat endpoint on the fallback extractor *)

Section FallbackIntent.
Import Chat Fallback.
Variable budget_search : string -> option Q.

Lemma fallback_destination_length (message_lower : string) :
  (String.length
     (str_or
        match List.find (fun entry => contains (fst entry) message_lower) destinations with
        | Some entry => Some (snd entry)
        | None => None
        end "LAX") = 3)%nat.
Proof.
  unfold destinations. cbn [List.find fst snd].
  repeat match goal with
         | |- context [contains ?n message_lower] =>
             destruct (contains n message_lower); [reflexivity|]
         end.
  reflexivity.
Qed.

(** Without the model the endpoint always understands the message: the
    fallback intent has a destination of three letters (["LAX"] when no
    known city is named), no origin, a departure one to thirty days ahead
    and a return three days later.  The request is built exactly when the
    number read as the budget is positive; otherwise validation rejects
    it. *)
Theorem fallback_extraction_understood (now : Z) (message : string) :
  let intent := _fallback_extraction budget_search now message in
  match bundle_request_of intent with
  | NotUnderstood => False
  | Invalid => ~ (0 < in_budget intent)%Q
  | Request request =>
      (0 < br_budget request)%Q
      /\ br_budget request = in_budget intent
      /\ String.length (br_destination request) = 3%nat
      /\ br_origin request = None
      /\ (now + timedelta_days 1 <= br_departure_date request
          <= now + timedelta_days 30)%Z
      /\ br_return_date request = Some (br_departure_date request + timedelta_days 3)
      /\ br_constraints request = {| bc_adults := 1; bc_children := 0; bc_rooms := 1 |}
  end.
Proof.
  intros intent.
  pose proof (fallback_destination_length (lower message)) as Hlen.
  unfold bundle_request_of. subst intent. unfold _fallback_extraction. cbv zeta.
  cbn [in_destination in_departure_date in_preferences ip_flight_class in_origin
       in_return_date in_budget in_adults in_children ip_hotel_star_rating
       ip_amenities ip_pet_friendly ip_avoid_red_eye].
  set (destination := str_or _ "LAX") in *.
  assert (Htruthy : truthy destination = true).
  { destruct destination; [discriminate | reflexivity]. }
  rewrite Htruthy.
  set (budget := match budget_search (lower message) with Some b => b | None => 1000%Q end).
  set (departure := if contains "next week" (lower message) then _ else _).
  assert (Hdep : (now + timedelta_days 1 <= departure <= now + timedelta_days 30)%Z).
  { subst departure. unfold timedelta_days.
    repeat destruct (contains _ (lower message)); lia. }
  unfold BundleRequest_valid.
  cbn [br_origin br_destination br_budget br_preferences br_constraints
       bp_hotel_star_rating bc_adults bc_children bc_rooms origin_ok].
  rewrite Hlen.
  assert (Hstars : star_list_ok
            (if contains "luxury" (lower message) || contains "5 star" (lower message)
                || contains "premium" (lower message)
             then Some [4; 5] else None) = true).
  { destruct (_ || _); reflexivity. }
  rewrite Hstars. cbn [Nat.leb Z.leb andb].
  destruct (Qlt_le_dec 0 budget) as [Hpos|Hneg]; cbn.
  - repeat split; try assumption; try reflexivity; apply Hdep.
  - lra.
Qed.

End FallbackIntent.

(** ** Saved bundles: what [generate] stores is what [bundles_for_user] reads *)

Section Saved.
Context `{Runtime}.
Import BundleEngine DealCache SavedBundles.

Lemma bundle_of_record_round_trip (response : BundleResponse) (user_id : option string)
    (now : Z) (l : list Bundle) :
  map bundle_of_record (map (bundle_record response user_id now) l) = l.
Proof.
  rewrite map_map. rewrite <- (map_id l) at 2. apply map_ext.
  intros bundle. now destruct bundle.
Qed.

Lemma generate_miss_length (settings : Settings) (st : Store) (env : Env)
    (request : BundleRequest) (user_id : option string)
    (response : BundleResponse) (st' : Store) :
  _cached_response st (clock env) (_cache_key request) = Ok None ->
  generate settings st env request user_id = Ok (response, st') ->
  st' = store_after st env request user_id response
  /\ (length (bundles response) <= bundle_limit settings)%nat
  /\ total_results response = length (bundles response)
  /\ ((1 <= bundle_limit settings)%nat -> bundles response <> []).
Proof.
  intros Hmiss Hrun.
  destruct (generate_miss settings st env request user_id Hmiss)
    as (flights & hotels & cars & _ & _ & _ & Hf & Hh & Hc & Hgen).
  cbv zeta in Hgen. rewrite Hgen in Hrun. injection Hrun as Hresp Hst.
  destruct (build_response_length settings env request flights hotels cars
              (top_deals (cached_deals st) (Some (br_destination request)) 5))
    as [Hlen Htot].
  rewrite Hresp in Hlen, Htot, Hst. split; [now symmetry|].
  split; [rewrite Hlen; apply Nat.le_min_l|]. split; [exact Htot|].
  intros Hlimit Hnil.
  pose proof (choices_nonempty flights hotels cars Hf Hh Hc) as Hch.
  rewrite Hnil in Hlen. simpl in Hlen.
  destruct (choices flights hotels cars); [contradiction|]. simpl in Hlen. lia.
Qed.

(** Without a hot cache, the bundles generated for a signed-in user are the
    bundles that user reads back: all of them, each once, whenever the read
    limit is at least the bundle limit and the user had nothing saved. *)
Theorem generate_then_bundles_for_user (settings : Settings) (st st' : Store)
    (env : Env) (request : BundleRequest) (user : string)
    (response : BundleResponse) (clock' : Z) (keys : list string) (limit : nat)
    (Hredis : redis st = None)
    (Huser : truthy user = true)
    (Hnone : forall row, In row (bundle_records st) -> rec_user_id row <> Some user)
    (Hlimit : (bundle_limit settings <= limit)%nat)
    (Hrun : generate settings st env request (Some user) = Ok (response, st')) :
  exists saved,
    bundles_for_user st' clock' keys user limit = Ok saved
    /\ Permutation saved (bundles response)
    /\ length saved = total_results response.
Proof.
  assert (Hmiss : _cached_response st (clock env) (_cache_key request) = Ok None).
  { unfold _cached_response. now rewrite Hredis. }
  destruct (generate_miss_length _ _ _ _ _ _ _ Hmiss Hrun) as (Hst & Hlen & Htot & _).
  unfold store_after, _store_response in Hst. rewrite Hredis, Huser in Hst.
  unfold cache_bundles in Hst. cbv zeta in Hst. rewrite Hredis in Hst.
  unfold bundles_for_user. cbv zeta. rewrite Hst. cbn [redis bundle_records].
  eexists. split; [reflexivity|].
  assert (Hperm : Permutation
            (map bundle_of_record
               (saved_rows
                  (bundle_records st
                   ++ map (bundle_record response (Some user) (utcnow env))
                        (bundles response)) user limit))
            (bundles response)).
  { unfold saved_rows. rewrite List.filter_app.
    rewrite (filter_none _ (bundle_records st)).
    2:{ intros row Hrow. specialize (Hnone row Hrow).
        destruct (rec_user_id row) as [u|]; [|reflexivity].
        destruct (String.eqb_spec u user); [congruence | reflexivity]. }
    rewrite filter_all.
    2:{ intros row Hrow. apply in_map_iff in Hrow. destruct Hrow as (b & <- & _).
        cbn. apply String.eqb_refl. }
    cbn [app]. rewrite firstn_all2.
    2:{ rewrite sort_desc_length, length_map. lia. }
    rewrite <- (bundle_of_record_round_trip response (Some user) (utcnow env)
                  (bundles response)) at 2.
    apply Permutation_map, sort_desc_perm. }
  split; [exact Hperm|]. rewrite Htot. now apply Permutation_length.
Qed.

(** With a hot cache, the response stored for a signed-in user is read back
    whole from its key for the next 900 seconds, provided the codec reads
    back what it wrote. *)
Theorem bundles_for_user_reads_hot_cache (settings : Settings) (st st' : Store)
    (env : Env) (request : BundleRequest) (user : string)
    (response : BundleResponse) (r : gmap string (string * Z)) (clock' : Z)
    (limit : nat)
    (Hredis : redis st = Some r)
    (Hmiss : _cached_response st (clock env) (_cache_key request) = Ok None)
    (Huser : truthy user = true)
    (Hsome : (1 <= bundle_limit settings)%nat)
    (Hlimit : (bundle_limit settings <= limit)%nat)
    (Hrun : generate settings st env request (Some user) = Ok (response, st'))
    (Hdump : truthy (model_dump_json response) = true)
    (Hcodec : model_validate_json (model_dump_json response) = Ok response)
    (Hfresh : clock' < clock env + 900) :
  bundles_for_user st' clock' ["bundles:" ++ user ++ ":" ++ search_id response]
    user limit
  = Ok (bundles response).
Proof.
  destruct (generate_miss_length _ _ _ _ _ _ _ Hmiss Hrun) as (Hst & Hlen & Htot & Hne).
  specialize (Hne Hsome).
  unfold store_after, _store_response in Hst. rewrite Hredis, Huser in Hst.
  unfold cache_bundles in Hst. cbv zeta in Hst. cbn [redis] in Hst. rewrite Huser in Hst.
  unfold bundles_for_user. cbv zeta. rewrite Hst. cbn [redis bundle_records].
  destruct limit as [|limit]; [lia|]. cbn [firstn read_cached].
  unfold redis_get at 1. unfold redis_setex at 1. rewrite lookup_insert_eq.
  assert (Hlt : (clock' <? clock env + 900)%Z = true) by now apply Z.ltb_lt.
  rewrite Hlt, Hdump, Hcodec, firstn_nil. cbn [bind read_cached]. rewrite app_nil_r.
  destruct (bundles response) as [|b rest] eqn:Hb; [contradiction|].
  f_equal. apply firstn_all2. lia.
Qed.

End Saved.

(** ** The further theorems at the scenarios *)

Section WitnessesMore.
Import Scenario Cases.

Lemma generate_bundle_count_witness :
  length (bundles response_1) = 1%nat
  /\ (length (bundles response_1) <= 18)%nat
  /\ total_results response_1 = length (bundles response_1).
Proof.
  refine (@generate_bundle_count runtime settings store_live _ (env_up 0) request
            (Some "user-123") response_1 [flight_1] [hotel_1] [car_1] _ _ _);
    vm_compute; reflexivity.
Defined.

Lemma generate_ranked_witness : descending b_fit_score (bundles response_1).
Proof.
  refine (proj1 (@generate_ranked runtime settings store_live _ (env_up 0) request
                   (Some "user-123") response_1 [flight_1] [hotel_1] [car_1] _ _ _));
    vm_compute; reflexivity.
Defined.


Lemma generate_store_effects_witness :
  exists st1,
    @BundleEngine.generate runtime settings store_live (env_up 0) request
      (Some "user-123") = Ok (response_1, st1)
    /\ cached_deals st1 = [deal_1]
    /\ watch_requests st1 = [watch_1].
Proof.
  eexists. split; [vm_compute; reflexivity|].
  pose proof (@generate_store_effects runtime settings store_live _ (env_up 0) request
                (Some "user-123") response_1 eq_refl) as (Hdeals & Hwatches & _).
  split; [exact Hdeals | exact Hwatches].
Defined.



Lemma generate_trusts_cache_entry_witness :
  @BundleEngine.generate runtime settings Degraded.store_corrupt (env_up 0) request None
  = Raise.
Proof.
  refine (@generate_trusts_cache_entry runtime settings Degraded.store_corrupt (env_up 0)
            request None "not json" _ _);
    vm_compute; reflexivity.
Defined.




Lemma evaluate_watches_frame_witness :
  map w_id (watch_requests
              (DealCache.tick_store (DealCache.evaluate_watches store_live ∅ 0)))
  = ["watch_1"].
Proof.
  refine (proj1 (proj2 (proj2 (proj2 (evaluate_watches_frame store_live ∅ 0 _))))).
  simpl. constructor; [intros [] | constructor].
Defined.

Lemma evaluate_watches_single_shot_witness :
  DealCache.tick_broadcasts
    (DealCache.evaluate_watches
       (DealCache.tick_store (DealCache.evaluate_watches store_live ∅ 0)) ∅ 30)
  = [].
Proof.
  rewrite (evaluate_watches_single_shot store_live ∅ ∅ 0 30).
  - reflexivity.
  - simpl. constructor; [intros [] | constructor].
Defined.

Lemma registry_no_empty_bucket_witness :
  no_empty_bucket (WebSocketManager.connect ∅ 1%nat (Some "user-123")).
Proof.
  refine (proj1 (registry_no_empty_bucket ∅ 1%nat (Some "user-123") _)).
  unfold no_empty_bucket, WebSocketManager.Connections.
  intros key sockets Hlook. rewrite lookup_empty in Hlook. discriminate.
Defined.

Lemma connect_disconnect_round_trip_witness :
  WebSocketManager.disconnect
    (WebSocketManager.connect ∅ 1%nat (Some "user-123")) 1%nat (Some "user-123")
  = ∅.
Proof.
  apply connect_disconnect_round_trip.
  - unfold no_empty_bucket, WebSocketManager.Connections.
    intros key sockets Hlook. rewrite lookup_empty in Hlook. discriminate.
  - intros [].
Defined.


Lemma tag_deal_exclusive_witness :
  exists out,
    DealsWorker.tag_deal 0 worker_scored = Ok out
    /\ List.NoDup (DealsWorker.tags out)
    /\ DealsWorker.conditions out = ["non-refundable"; "changeable with fee"].
Proof.
  eexists. split; [vm_compute; reflexivity|]. split; [|reflexivity].
  refine (proj1 (tag_deal_exclusive 0 worker_scored _ _)).
  vm_compute. reflexivity.
Defined.

Lemma process_deals_pipeline_keeps_batch_witness :
  exists tagged,
    Pipeline.process_deals_pipeline 0 0 0 (fun _ => 10%Q) [DealsWorker.raw worker_deal]
    = Ok tagged
    /\ length tagged = 1%nat.
Proof.
  eexists. split; [vm_compute; reflexivity|].
  refine (proj1 (proj2 (process_deals_pipeline_keeps_batch 0 0 0 (fun _ => 10%Q)
                          [DealsWorker.raw worker_deal] _ _))).
  vm_compute. reflexivity.
Defined.

Lemma process_deals_pipeline_aborts_witness :
  Pipeline.process_deals_pipeline 0 0 0 (fun _ => 10%Q)
    [DealsWorker.raw worker_deal; csv_flight_raw]
  = Raise.
Proof.
  apply (process_deals_pipeline_aborts 0 0 0 (fun _ => 10%Q) _ csv_flight_raw).
  - right. now left.
  - right. split; [reflexivity | exact I].
Defined.

Lemma consume_only_adds_witness :
  DealEventConsumer._consume decode [deal_1] [(1, "junk"); (2, "d2")]
  = DealEventConsumer._consume decode [deal_1] [(2, "d2")].
Proof.
  refine (proj2 (consume_only_adds decode [deal_1] [(1, "junk"); (2, "d2")] _)).
  simpl. constructor; [intros [] | constructor].
Defined.


Lemma generate_then_bundles_for_user_witness :
  exists response st' saved,
    @BundleEngine.generate runtime settings store_plain (env_up 0) request
      (Some "user-123") = Ok (response, st')
    /\ @SavedBundles.bundles_for_user runtime st' 60 [] "user-123" 10 = Ok saved
    /\ length saved = total_results response.
Proof.
  assert (Hrun : exists response st',
            @BundleEngine.generate runtime settings store_plain (env_up 0) request
              (Some "user-123") = Ok (response, st'))
    by (eexists; eexists; vm_compute; reflexivity).
  destruct Hrun as (response & st' & Hrun). exists response, st'.
  destruct (@generate_then_bundles_for_user runtime settings store_plain st' (env_up 0)
              request "user-123" response 60 [] 10) as (saved & Hread & _ & Hlen).
  - reflexivity.
  - reflexivity.
  - intros row [].
  - simpl. lia.
  - exact Hrun.
  - exists saved. split; [exact Hrun|]. split; [exact Hread | exact Hlen].
Defined.

Lemma bundles_for_user_reads_hot_cache_witness :
  exists st1,
    @BundleEngine.generate runtime settings store_live (env_up 0) request
      (Some "user-123") = Ok (response_1, st1)
    /\ @SavedBundles.bundles_for_user runtime st1 899
         ["bundles:user-123:" ++ search_id response_1] "user-123" 10
       = Ok (bundles response_1).
Proof.
  eexists. split; [vm_compute; reflexivity|].
  refine (@bundles_for_user_reads_hot_cache runtime settings store_live _ (env_up 0)
            request "user-123" response_1 ∅ 899 10 _ _ _ _ _ _ _ _ _).
  - reflexivity.
  - vm_compute. reflexivity.
  - reflexivity.
  - simpl. lia.
  - simpl. lia.
  - vm_compute. reflexivity.
  - vm_compute. reflexivity.
  - vm_compute. reflexivity.
  - simpl. lia.
Defined.

End WitnessesMore.
